(** * omni-ai: entitlement, usage accounting and like toggle

    A shallow embedding of the server side of the repository:
    - [server/middlewares/auth.js]        (the [auth] middleware),
    - [server/controllers/aiController.js] (the six generation handlers),
    - [server/controllers/userController.js] ([toggleLikeCreation]),
    - [server/routes/*.js]                (which middleware precedes which
                                           handler).

    Every handler is an [async] function whose body is one [try] block; the
    [catch] turns a thrown error into [{success: false, message}].  The
    handlers talk to four outside parties: the identity provider (Clerk), the
    relational store (the [creations] table), the generative providers and
    the local file system.  The first two hold the state the handlers read
    and write, so they are part of the [world]; the others answer requests,
    so their answers are taken from a [services] record and every call made
    to them is appended to the world's list of invocations.

    JavaScript numbers ([free_usage], [resume.size], [max_tokens]) are
    integers here, which is exact for the counters and sizes the server
    meets (below 2^53). *)

From Stdlib Require Import ZArith Lia Ascii String.
From stdpp Require Import gmap strings list fin_maps.

Local Open Scope Z_scope.

(** ** Data *)

(** A Clerk user, reduced to the part the server touches: the private
    metadata, a JS object used as a map from keys to numbers. *)
Record user := { privateMetadata : gmap string Z }.

(** A file received by multer ([req.file]). *)
Record upload := { path : string; size : Z }.

(** The fields the handlers read from [req.body]. *)
Record body := {
  body_prompt : string;
  body_length : Z;
  body_publish : option bool;
  body_object : string;
  body_id : Z
}.

(** The request as it reaches [auth]: the session ([req.auth()] gives the
    user id and [has]), the parsed body and the uploaded file, if any. *)
Record incoming := {
  userId : string;
  has_premium : bool;
  req_body : body;
  file : option upload
}.

(** The request after [auth] has set [req.plan] and [req.free_usage]. *)
Record request := {
  inc :> incoming;
  plan : string;
  free_usage : Z
}.

(** A row of the [creations] table.  The statements of the handlers name the
    columns [id], [user_id], [prompt], [content], [type], [publish] and
    [likes]. *)
Record creation := {
  creation_id : Z;
  user_id : string;
  prompt : string;
  content : string;
  type : string;
  publish : bool;
  likes : list string
}.

(** What an [INSERT INTO creations] provides; the store fills in the rest. *)
Record new_creation := {
  new_user_id : string;
  new_prompt : string;
  new_content : string;
  new_type : string;
  new_publish : option bool
}.

(** Calls to the generative providers and to the file system. *)
Inductive invocation :=
| ChatCompletion (model : string) (prompt : string) (max_tokens : Z)
| TextToImage (prompt : string)
| CloudinaryUpload (source : string) (background_removal : bool)
| ReadFileSync (path : string)
| PdfParse (buffer : string).

Record uploaded := { secure_url : string; public_id : string }.

(** The answers of the outside parties while one request is served.  A
    result [inl m] is an error thrown with message [m]; [text_array] is the
    array the store makes of a literal cast with [::text[]]. *)
Record services := {
  getUser_fault : option string;
  updateUserMetadata_fault : option string;
  select_fault : option string;
  insert_fault : option string;
  update_fault : option string;
  text_array : string -> list string;
  chat_completion : string -> Z -> string + string;
  text_to_image : string -> string + string;
  base64 : string -> string;
  cloudinary_upload : string -> bool -> string + uploaded;
  cloudinary_url : string -> string -> string;
  readFileSync : string -> string + string;
  pdf : string -> string + string
}.

Record world := {
  clerk : gmap string user;
  creations : list creation;
  next_id : Z;
  invoked : list invocation
}.

(** The JSON object given to [res.json]. *)
Record json := {
  success : bool;
  json_content : option string;
  json_message : option string;
  json_error : option string
}.

Definition json_with_content (c : string) : json :=
  {| success := true; json_content := Some c;
     json_message := None; json_error := None |}.

Definition json_with_message (ok : bool) (m : string) : json :=
  {| success := ok; json_content := None;
     json_message := Some m; json_error := None |}.

Definition json_with_error (e : string) : json :=
  {| success := false; json_content := None;
     json_message := None; json_error := Some e |}.

(** ** The effects of a handler body

    A computation runs in a world and either returns a value or throws an
    error message; what it wrote before throwing stays written. *)

Definition js (A : Type) : Type := world -> world * (string + A).

Definition ret {A} (a : A) : js A := fun w => (w, inr a).

Definition throw {A} (m : string) : js A := fun w => (w, inl m).

Definition bind {A B} (c : js A) (k : A -> js B) : js B :=
  fun w => match c w with
           | (w', inr a) => k a w'
           | (w', inl m) => (w', inl m)
           end.

Declare Scope js_scope.
Delimit Scope js_scope with js.
Notation "x <- c ;; k" := (bind c (fun x => k))
  (at level 100, c at next level, right associativity) : js_scope.
Notation "c ;;; k" := (bind c (fun _ => k))
  (at level 100, right associativity) : js_scope.
Local Open Scope js_scope.

(** [try { body } catch (error) { res.json({success: false, message:
    error.message}) }] *)
Definition try_catch (c : js json) (w : world) : world * json :=
  match c w with
  | (w', inr r) => (w', r)
  | (w', inl m) => (w', json_with_message false m)
  end.

(** A call to a provider: it is recorded and answers as [services] says. *)
Definition invoke {A} (i : invocation) (answer : string + A) : js A :=
  fun w => ({| clerk := clerk w; creations := creations w;
               next_id := next_id w; invoked := invoked w ++ [i] |}, answer).

Definition fault (f : option string) : js unit :=
  match f with
  | Some m => throw m
  | None => ret tt
  end.

(** *** Identity provider *)

Definition not_found : string := "Not Found".

(** [clerkClient.users.getUser(userId)] *)
Definition getUser (sv : services) (uid : string) : js user :=
  fault (getUser_fault sv) ;;;
  fun w => match clerk w !! uid with
           | Some u => (w, inr u)
           | None => (w, inl not_found)
           end.

Definition set_clerk (w : world) (c : gmap string user) : world :=
  {| clerk := c; creations := creations w;
     next_id := next_id w; invoked := invoked w |}.

(** [clerkClient.users.updateUserMetadata(userId, {privateMetadata:
    {free_usage: n}})]: the given key is merged into the stored metadata,
    the other keys stay. *)
Definition updateUserMetadata (sv : services) (uid : string) (n : Z) : js unit :=
  fault (updateUserMetadata_fault sv) ;;;
  fun w => match clerk w !! uid with
           | Some u =>
               (set_clerk w
                  (<[uid := {| privateMetadata :=
                                 <["free_usage" := n]> (privateMetadata u) |}]>
                     (clerk w)),
                inr tt)
           | None => (w, inl not_found)
           end.

(** The counter stored for a user, if the user and the key exist. *)
Definition stored_free_usage (w : world) (uid : string) : option Z :=
  u ← clerk w !! uid; privateMetadata u !! "free_usage".

(** *** Relational store *)

Definition set_creations (w : world) (l : list creation) (n : Z) : world :=
  {| clerk := clerk w; creations := l; next_id := n; invoked := invoked w |}.

(** Modelled from the spec: the table definition is not in the repository.
    By section 4.4 the store assigns the id, [publish] defaults to false and
    [likes] starts empty. *)
Definition stored_row (n : Z) (r : new_creation) : creation :=
  {| creation_id := n;
     user_id := new_user_id r;
     prompt := new_prompt r;
     content := new_content r;
     type := new_type r;
     publish := default false (new_publish r);
     likes := [] |}.

(** [INSERT INTO creations (...) VALUES (...)] *)
Definition sql_insert (sv : services) (r : new_creation) : js unit :=
  fault (insert_fault sv) ;;;
  fun w => (set_creations w (creations w ++ [stored_row (next_id w) r])
              (next_id w + 1),
            inr tt).

(** [SELECT * FROM creations WHERE id = ${id}] *)
Definition sql_select_id (sv : services) (i : Z) : js (list creation) :=
  fault (select_fault sv) ;;;
  fun w => (w, inr (filter (fun c => creation_id c = i) (creations w))).

Definition set_likes (l : list string) (c : creation) : creation :=
  {| creation_id := creation_id c; user_id := user_id c; prompt := prompt c;
     content := content c; type := type c; publish := publish c;
     likes := l |}.

(** [UPDATE creations SET likes = ... WHERE id = ${id}] *)
Definition likes_where (i : Z) (l : list string) (rows : list creation)
  : list creation :=
  map (fun c => if decide (creation_id c = i) then set_likes l c else c) rows.

Definition sql_update_likes (sv : services) (i : Z) (l : list string) : js unit :=
  fault (update_fault sv) ;;;
  fun w => (set_creations w (likes_where i l (creations w)) (next_id w),
            inr tt).

(** [formattedArray]: the [text[]] literal built from the updated likes,
    [`{${updatedLikes.join(',')}}`]. *)
Fixpoint join (sep : string) (l : list string) : string :=
  match l with
  | [] => ""
  | [x] => x
  | x :: rest => x +:+ sep +:+ join sep rest
  end.

Definition formattedArray (updatedLikes : list string) : string :=
  "{" +:+ join "," updatedLikes +:+ "}".

(** ** The [auth] middleware (server/middlewares/auth.js) *)

Definition auth (sv : services) (r : incoming) (w : world)
  : world * (json + request) :=
  let resolved :=
    user <- getUser sv (userId r) ;;
    let reset := (updateUserMetadata sv (userId r) 0 ;;; ret 0) in
    usage <- match privateMetadata user !! "free_usage" with
             | Some n =>
                 (* a stored number is truthy unless it is 0 *)
                 if negb (has_premium r) && negb (n =? 0) then ret n else reset
             | None => reset
             end ;;
    ret {| inc := r;
           plan := if has_premium r then "premium" else "free";
           free_usage := usage |} in
  match resolved w with
  | (w', inr req) => (w', inr req)
  | (w', inl m) => (w', inl (json_with_error m))
  end.

(** ** The generation handlers (server/controllers/aiController.js) *)

Definition limit_reached : string :=
  "Free usage limit reached. Upgrade to premium for more requests.".

Definition premium_only : string :=
  "This feature is only available for premium users.".

Definition size_exceeded : string :=
  "Resume file size exceeds 5MB limit.".

Definition gemini : string := "gemini-2.0-flash".

Definition newline : string := String (Ascii.ascii_of_nat 10) "".

(** Reading a property of [req.file] when no file was uploaded. *)
Definition undefined_property (name : string) : string :=
  "Cannot read properties of undefined (reading '" +:+ name +:+ "')".

Definition file_property {A} (f : option upload) (name : string)
    (get : upload -> A) : js A :=
  match f with
  | Some u => ret (get u)
  | None => throw (undefined_property name)
  end.

Definition handler : Type := services -> request -> world -> world * json.

Definition generateArticle : handler := fun sv req =>
  try_catch (
    let prompt := body_prompt (req_body req) in
    let length := body_length (req_body req) in
    if negb (String.eqb (plan req) "premium") && (free_usage req >=? 10) then
      ret (json_with_message false limit_reached)
    else
      content <- invoke (ChatCompletion gemini prompt length)
                        (chat_completion sv prompt length) ;;
      sql_insert sv {| new_user_id := userId req; new_prompt := prompt;
                       new_content := content; new_type := "article";
                       new_publish := None |} ;;;
      (if negb (String.eqb (plan req) "premium")
       then updateUserMetadata sv (userId req) (free_usage req + 1)
       else ret tt) ;;;
      ret (json_with_content content)).

Definition generateBlogTitle : handler := fun sv req =>
  try_catch (
    let prompt := body_prompt (req_body req) in
    if negb (String.eqb (plan req) "premium") && (free_usage req >=? 10) then
      ret (json_with_message false limit_reached)
    else
      content <- invoke (ChatCompletion gemini prompt 100)
                        (chat_completion sv prompt 100) ;;
      sql_insert sv {| new_user_id := userId req; new_prompt := prompt;
                       new_content := content; new_type := "blog-title";
                       new_publish := None |} ;;;
      (if negb (String.eqb (plan req) "premium")
       then updateUserMetadata sv (userId req) (free_usage req + 1)
       else ret tt) ;;;
      ret (json_with_content content)).

Definition generateImage : handler := fun sv req =>
  try_catch (
    let prompt := body_prompt (req_body req) in
    if negb (String.eqb (plan req) "premium") then
      ret (json_with_message false premium_only)
    else
      data <- invoke (TextToImage prompt) (text_to_image sv prompt) ;;
      let base64Image := "data:image/png;base64," +:+ base64 sv data in
      up <- invoke (CloudinaryUpload base64Image false)
                   (cloudinary_upload sv base64Image false) ;;
      sql_insert sv {| new_user_id := userId req; new_prompt := prompt;
                       new_content := secure_url up; new_type := "image";
                       new_publish :=
                         Some (default false (body_publish (req_body req))) |} ;;;
      ret (json_with_content (secure_url up))).

Definition removeImageBackground : handler := fun sv req =>
  try_catch (
    if negb (String.eqb (plan req) "premium") then
      ret (json_with_message false premium_only)
    else
      image_path <- file_property (file req) "path" path ;;
      up <- invoke (CloudinaryUpload image_path true)
                   (cloudinary_upload sv image_path true) ;;
      sql_insert sv {| new_user_id := userId req;
                       new_prompt := "Remove background from image";
                       new_content := secure_url up; new_type := "image";
                       new_publish := None |} ;;;
      ret (json_with_content (secure_url up))).

Definition removeImageObject : handler := fun sv req =>
  try_catch (
    let object := body_object (req_body req) in
    if negb (String.eqb (plan req) "premium") then
      ret (json_with_message false premium_only)
    else
      image_path <- file_property (file req) "path" path ;;
      up <- invoke (CloudinaryUpload image_path false)
                   (cloudinary_upload sv image_path false) ;;
      let imageUrl := cloudinary_url sv (public_id up) ("gen_remove:" +:+ object) in
      sql_insert sv {| new_user_id := userId req;
                       new_prompt := "Removed " +:+ object +:+ " from image";
                       new_content := imageUrl; new_type := "image";
                       new_publish := None |} ;;;
      ret (json_with_content imageUrl)).

Definition review_prompt (text : string) : string :=
  "Review the following resume and provide super constructive and critical feedback on its strengths, weakness, and areas for improvement. Resume Content:"
  +:+ newline +:+ newline +:+ text.

Definition resumeReview : handler := fun sv req =>
  try_catch (
    if negb (String.eqb (plan req) "premium") && (free_usage req >=? 10) then
      ret (json_with_message false premium_only)
    else
      resume_size <- file_property (file req) "size" size ;;
      if resume_size >? 5 * 1024 * 1024 then
        ret (json_with_message false size_exceeded)
      else
        resume_path <- file_property (file req) "path" path ;;
        databuffer <- invoke (ReadFileSync resume_path)
                             (readFileSync sv resume_path) ;;
        text <- invoke (PdfParse databuffer) (pdf sv databuffer) ;;
        let prompt := review_prompt text in
        content <- invoke (ChatCompletion gemini prompt 1000)
                          (chat_completion sv prompt 1000) ;;
        sql_insert sv {| new_user_id := userId req;
                         new_prompt := "Review the uploaded resume";
                         new_content := content; new_type := "resume-review";
                         new_publish := None |} ;;;
        (if negb (String.eqb (plan req) "premium")
         then updateUserMetadata sv (userId req) (free_usage req + 3)
         else ret tt) ;;;
        ret (json_with_content content)).

(** ** The like toggle (server/controllers/userController.js) *)

(** [currentLikes.includes(userIdStr)] *)
Definition includes (l : list string) (x : string) : bool :=
  existsb (String.eqb x) l.

(** The branch on membership: the updated likes and the message. *)
Definition toggled (userIdStr : string) (currentLikes : list string)
  : list string * string :=
  if includes currentLikes userIdStr
  then (List.filter (fun user => negb (String.eqb user userIdStr)) currentLikes,
        "Creation disliked")
  else ((currentLikes ++ [userIdStr])%list, "Creation liked").

Definition toggleLikeCreation : handler := fun sv req =>
  try_catch (
    let id := body_id (req_body req) in
    rows <- sql_select_id sv id ;;
    match rows with
    | [] => ret (json_with_message false "Creation not found")
    | creation :: _ =>
        let (updatedLikes, message) := toggled (userId req) (likes creation) in
        sql_update_likes sv id (text_array sv (formattedArray updatedLikes)) ;;;
        ret (json_with_message true message)
    end).

(** ** Routes (server/routes/aiRoutes.js, userRoutes.js)

    Every route runs [auth] first (after multer, where a file is expected)
    and hands the request on only when [auth] calls [next()]. *)
Definition route (h : handler) (sv : services) (r : incoming) (w : world)
  : world * json :=
  match auth sv r w with
  | (w', inl j) => (w', j)
  | (w', inr req) => h sv req w'
  end.

(** ** A reference environment

    Providers that always answer and a store that reads a [text[]] literal
    without quoting: the text between the braces, cut at the commas. *)

Fixpoint split_commas (acc : string) (s : string) : list string :=
  match s with
  | "" => [acc]
  | String c rest =>
      if Ascii.eqb c ","%char then acc :: split_commas "" rest
      else split_commas (acc +:+ String c "") rest
  end.

Definition read_text_array (literal : string) : list string :=
  match literal with
  | "" => []
  | String _ rest =>
      match substring 0 (String.length rest - 1) rest with
      | "" => []
      | inner => split_commas "" inner
      end
  end.

Definition answering : services :=
  {| getUser_fault := None;
     updateUserMetadata_fault := None;
     select_fault := None;
     insert_fault := None;
     update_fault := None;
     text_array := read_text_array;
     chat_completion := fun prompt _ => inr ("Re: " +:+ prompt);
     text_to_image := fun prompt => inr ("png:" +:+ prompt);
     base64 := fun data => data;
     cloudinary_upload := fun source _ =>
       inr {| secure_url := "https://res.cloudinary.com/" +:+ source;
              public_id := source |};
     cloudinary_url := fun public effect => public +:+ "/" +:+ effect;
     readFileSync := fun p => inr ("%PDF " +:+ p);
     pdf := fun buffer => inr buffer |}.

(** The same environment with the generative providers down. *)
Definition provider_down : services :=
  {| getUser_fault := None;
     updateUserMetadata_fault := None;
     select_fault := None;
     insert_fault := None;
     update_fault := None;
     text_array := read_text_array;
     chat_completion := fun _ _ => inl "503 Service Unavailable";
     text_to_image := fun _ => inl "503 Service Unavailable";
     base64 := fun data => data;
     cloudinary_upload := fun _ _ => inl "503 Service Unavailable";
     cloudinary_url := fun public effect => public +:+ "/" +:+ effect;
     readFileSync := fun p => inr ("%PDF " +:+ p);
     pdf := fun buffer => inr buffer |}.

Definition with_usage (n : Z) : user :=
  {| privateMetadata := {[ "free_usage" := n ]} |}.

Definition a_body : body :=
  {| body_prompt := "Hi"; body_length := 800; body_publish := None;
     body_object := "cup"; body_id := 1 |}.

Definition from_user (uid : string) (premium : bool) (f : option upload)
  : incoming :=
  {| userId := uid; has_premium := premium; req_body := a_body; file := f |}.

Definition as_plan (uid : string) (p : string) (usage : Z)
    (f : option upload) : request :=
  {| inc := from_user uid (String.eqb p "premium") f;
     plan := p; free_usage := usage |}.

Definition a_creation (l : list string) : creation :=
  {| creation_id := 1; user_id := "user_a"; prompt := "Hi";
     content := "Hello there"; type := "article"; publish := true;
     likes := l |}.

Definition a_world (usage : Z) (l : list string) : world :=
  {| clerk := {[ "user_a" := with_usage usage ]};
     creations := [a_creation l];
     next_id := 2;
     invoked := [] |}.

(** ** Serving requests one after the other *)

(** The table of server/routes/aiRoutes.js. *)
Inductive endpoint :=
| GenerateArticle
| GenerateBlogTitle
| GenerateImage
| RemoveImageBackground
| RemoveImageObject
| ResumeReview.

Definition controller (e : endpoint) : handler :=
  match e with
  | GenerateArticle => generateArticle
  | GenerateBlogTitle => generateBlogTitle
  | GenerateImage => generateImage
  | RemoveImageBackground => removeImageBackground
  | RemoveImageObject => removeImageObject
  | ResumeReview => resumeReview
  end.

(** Requests of one route, each with the environment it meets, served in
    order; the replies are collected. *)
Fixpoint serve (h : handler) (rs : list (services * incoming)) (w : world)
  : world * list json :=
  match rs with
  | [] => (w, [])
  | (sv, r) :: rest =>
      let (w1, j) := route h sv r w in
      let (w2, replies) := serve h rest w1 in
      (w2, j :: replies)
  end.

(** Controller runs on requests that [auth] has already let through. *)
Fixpoint run (calls : list (endpoint * services * request)) (w : world)
  : world :=
  match calls with
  | [] => w
  | (e, sv, req) :: rest => run rest (fst (controller e sv req w))
  end.

(** ** Vocabulary of the statements *)

(** The handler called a provider: the call is the next one recorded. *)
Definition calls_provider (out : world * json) (w : world) (i : invocation)
  : Prop :=
  invoked (fst out) = (invoked w ++ [i])%list.

Definition article_call (req : request) : invocation :=
  ChatCompletion gemini (body_prompt (req_body req)) (body_length (req_body req)).

Definition title_call (req : request) : invocation :=
  ChatCompletion gemini (body_prompt (req_body req)) 100.

(** An answer that is a thrown error. *)
Definition is_error {A} (r : string + A) : Prop :=
  match r with
  | inl _ => True
  | inr _ => False
  end.

(** The capability invocation of an endpoint fails: the last provider the
    handler has to call before it may record the result throws, whenever
    the handler gets as far as calling it. *)
Definition provider_error (e : endpoint) (sv : services) (req : request)
  : Prop :=
  match e with
  | GenerateArticle =>
      is_error (chat_completion sv (body_prompt (req_body req))
                  (body_length (req_body req)))
  | GenerateBlogTitle =>
      is_error (chat_completion sv (body_prompt (req_body req)) 100)
  | GenerateImage =>
      forall data, text_to_image sv (body_prompt (req_body req)) = inr data ->
        is_error (cloudinary_upload sv
                    ("data:image/png;base64," +:+ base64 sv data) false)
  | RemoveImageBackground =>
      forall f, file req = Some f ->
        is_error (cloudinary_upload sv (path f) true)
  | RemoveImageObject =>
      forall f, file req = Some f ->
        is_error (cloudinary_upload sv (path f) false)
  | ResumeReview =>
      forall f buffer text, file req = Some f ->
        readFileSync sv (path f) = inr buffer ->
        pdf sv buffer = inr text ->
        is_error (chat_completion sv (review_prompt text) 1000)
  end.

(** Nothing was appended to the ledger and nothing was written to the
    identity provider. *)
Definition uncommitted (w w' : world) : Prop :=
  creations w' = creations w /\ next_id w' = next_id w /\ clerk w' = clerk w.

(** The counter of a user as the gate sees it: a missing key counts as 0,
    which is also what [auth] makes of it. *)
Definition counter (w : world) (uid : string) : Z :=
  default 0 (stored_free_usage w uid).

(** Nothing fails while an article request is served: the identity provider
    and the store accept their calls and the text provider answers. *)
Definition succeeds (sv : services) (r : incoming) : Prop :=
  getUser_fault sv = None
  /\ updateUserMetadata_fault sv = None
  /\ insert_fault sv = None
  /\ ~ is_error (chat_completion sv (body_prompt (req_body r))
                   (body_length (req_body r))).

(** A request of user [uid], who is on the free plan, that meets no
    failure. *)
Definition free_request (uid : string) (x : services * incoming) : Prop :=
  userId (snd x) = uid /\ has_premium (snd x) = false
  /\ succeeds (fst x) (snd x).

(** The row the handler takes from [SELECT ... WHERE id = i]: the first
    one returned, if any. *)
Definition find_creation (i : Z) (w : world) : option creation :=
  head (filter (fun c => creation_id c = i) (creations w)).

(** The store answers the handler's two statements and reads the literal
    built from [l] back as the array [l]. *)
Definition faithful (sv : services) (l : list string) : Prop :=
  select_fault sv = None /\ update_fault sv = None
  /\ text_array sv (formattedArray l) = l.

Definition liked : json := json_with_message true "Creation liked".

Definition disliked : json := json_with_message true "Creation disliked".

(** The likes after one toggle by [u], and after two. *)
Definition once (u : string) (l : list string) : list string :=
  fst (toggled u l).

Definition twice (u : string) (l : list string) : list string :=
  once u (once u l).

(** A user id that needs no quoting in the literal, for the reference
    store: not empty and without a comma. *)
Fixpoint comma_free (s : string) : bool :=
  match s with
  | "" => true
  | String c rest => negb (Ascii.eqb c ","%char) && comma_free rest
  end.

Definition plain_id (s : string) : Prop :=
  s <> "" /\ comma_free s = true.

(** ** The listings (server/controllers/userController.js)

    The two listing handlers answer [{success: true, creations}] or, from
    the [catch], [{success: false, message}]. *)
Record listing := {
  listing_success : bool;
  listing_creations : option (list creation);
  listing_message : option string
}.

(** Modelled from the spec: the [created_at] column is not in the
    repository.  By section 3 it is stamped at insert time and only used for
    ordering; rows are kept here in the order of their insertion, so
    [ORDER BY created_at DESC] is that order reversed. *)
Definition newest_first (rows : list creation) : list creation :=
  reverse rows.

(** [SELECT * FROM creations WHERE user_id = ${userId} ORDER BY created_at
    DESC] *)
Definition sql_select_user (sv : services) (uid : string)
  : js (list creation) :=
  fault (select_fault sv) ;;;
  fun w => (w, inr (newest_first
                      (filter (fun c => user_id c = uid) (creations w)))).

(** [SELECT * FROM creations WHERE publish = true ORDER BY created_at DESC] *)
Definition sql_select_published (sv : services) : js (list creation) :=
  fault (select_fault sv) ;;;
  fun w => (w, inr (newest_first
                      (filter (fun c => publish c = true) (creations w)))).

Definition listed (c : js (list creation)) (w : world) : world * listing :=
  match c w with
  | (w', inr rows) =>
      (w', {| listing_success := true; listing_creations := Some rows;
              listing_message := None |})
  | (w', inl m) =>
      (w', {| listing_success := false; listing_creations := None;
              listing_message := Some m |})
  end.

Definition getUserCreations (sv : services) (req : request) (w : world)
  : world * listing :=
  listed (sql_select_user sv (userId req)) w.

Definition getPublishedCreations (sv : services) (req : request) (w : world)
  : world * listing :=
  listed (sql_select_published sv) w.

(** ** More vocabulary *)

(** What a route charges a free plan for a served request, and the [type]
    it records. *)
Definition charge (e : endpoint) : option Z :=
  match e with
  | GenerateArticle | GenerateBlogTitle => Some 1
  | ResumeReview => Some 3
  | GenerateImage | RemoveImageBackground | RemoveImageObject => None
  end.

Definition recorded_type (e : endpoint) : string :=
  match e with
  | GenerateArticle => "article"
  | GenerateBlogTitle => "blog-title"
  | GenerateImage | RemoveImageBackground | RemoveImageObject => "image"
  | ResumeReview => "resume-review"
  end.

(** The metadata of [u] with the counter set to [n]. *)
Definition counted (n : Z) (u : user) : user :=
  {| privateMetadata := <["free_usage" := n]> (privateMetadata u) |}.

(** A world whose only user has no metadata yet, and no creations. *)
Definition new_user : user := {| privateMetadata := ∅ |}.

Definition new_world : world :=
  {| clerk := {[ "user_a" := new_user ]};
     creations := []; next_id := 1; invoked := [] |}.

(** The row a route records for a served request: [n] is the id the store
    assigns and [c] the content. *)
Definition recorded_prompt (e : endpoint) (req : request) : string :=
  match e with
  | GenerateArticle | GenerateBlogTitle | GenerateImage =>
      body_prompt (req_body req)
  | RemoveImageBackground => "Remove background from image"
  | RemoveImageObject =>
      "Removed " +:+ body_object (req_body req) +:+ " from image"
  | ResumeReview => "Review the uploaded resume"
  end.

Definition recorded_publish (e : endpoint) (req : request) : bool :=
  match e with
  | GenerateImage => default false (body_publish (req_body req))
  | _ => false
  end.

Definition recorded (e : endpoint) (req : request) (n : Z) (c : string)
  : creation :=
  {| creation_id := n;
     user_id := userId req;
     prompt := recorded_prompt e req;
     content := c;
     type := recorded_type e;
     publish := recorded_publish e req;
     likes := [] |}.

(** A request of user [uid], who holds the premium plan, that meets no
    failure. *)
Definition premium_request (uid : string) (x : services * incoming) : Prop :=
  userId (snd x) = uid /\ has_premium (snd x) = true
  /\ succeeds (fst x) (snd x).

(** A request of user [uid] in a session without the premium plan. *)
Definition free_session (uid : string) (x : services * incoming) : Prop :=
  userId (snd x) = uid /\ has_premium (snd x) = false.

(** ** Properties *)

(** *** Reading the primitives *)

Lemma eqb_premium (p : string) :
  String.eqb p "premium" = true <-> p = "premium".
Proof. apply String.eqb_eq. Qed.

Lemma not_premium (p : string) :
  negb (String.eqb p "premium") = true <-> p <> "premium".
Proof.
  rewrite negb_true_iff. split.
  - intros H E. apply eqb_premium in E. congruence.
  - intros H. destruct (String.eqb p "premium") eqn:E; [|done].
    apply eqb_premium in E. contradiction.
Qed.

Lemma reached (n : Z) : (n >=? 10) = true <-> 10 <= n.
Proof. rewrite Z.geb_leb. apply Z.leb_le. Qed.

Lemma not_reached (n : Z) : (n >=? 10) = false <-> n < 10.
Proof. rewrite Z.geb_leb. apply Z.leb_gt. Qed.

Lemma app_one_neq {A} (l : list A) (x : A) : l <> (l ++ [x])%list.
Proof.
  intros E. apply (f_equal List.length) in E.
  rewrite length_app in E. simpl in E. lia.
Qed.

(** Unfolds a handler body and splits on every test it makes. *)
Ltac unfold_js :=
  unfold try_catch, file_property, sql_insert, updateUserMetadata, getUser,
    sql_select_id, sql_update_likes in *;
  unfold bind, fault, invoke, ret, throw, set_clerk, set_creations in *.

(** Runs a handler body through every test it makes. *)
Ltac run_js := unfold_js; repeat (case_match; simplify_eq/=).

(** *** The quota gate of the metered text handlers *)

Lemma article_gate sv (req : request) w :
  (plan req = "premium" \/ free_usage req < 10 <->
     calls_provider (generateArticle sv req w) w (article_call req))
  /\ (~ (plan req = "premium" \/ free_usage req < 10) ->
      generateArticle sv req w = (w, json_with_message false limit_reached)).
Proof.
  unfold calls_provider, article_call, generateArticle.
  destruct (negb (String.eqb (plan req) "premium")) eqn:P;
    destruct (free_usage req >=? 10) eqn:U; simpl;
    try apply not_premium in P; try apply negb_false_iff, eqb_premium in P;
    try apply reached in U; try apply not_reached in U.
  - split; [split|]; intros H.
    + exfalso. destruct H; [done | lia].
    + exfalso. revert H. unfold_js. simpl. apply app_one_neq.
    + reflexivity.
  - split; [split|]; intros H; [|by right|exfalso; apply H; by right].
    clear H. run_js; reflexivity.
  - split; [split|]; intros H; [|by left|exfalso; apply H; by left].
    clear H. run_js; reflexivity.
  - split; [split|]; intros H; [|by left|exfalso; apply H; by left].
    clear H. run_js; reflexivity.
Qed.

Lemma title_gate sv (req : request) w :
  (plan req = "premium" \/ free_usage req < 10 <->
     calls_provider (generateBlogTitle sv req w) w (title_call req))
  /\ (~ (plan req = "premium" \/ free_usage req < 10) ->
      generateBlogTitle sv req w = (w, json_with_message false limit_reached)).
Proof.
  unfold calls_provider, title_call, generateBlogTitle.
  destruct (negb (String.eqb (plan req) "premium")) eqn:P;
    destruct (free_usage req >=? 10) eqn:U; simpl;
    try apply not_premium in P; try apply negb_false_iff, eqb_premium in P;
    try apply reached in U; try apply not_reached in U.
  - split; [split|]; intros H.
    + exfalso. destruct H; [done | lia].
    + exfalso. revert H. unfold_js. simpl. apply app_one_neq.
    + reflexivity.
  - split; [split|]; intros H; [|by right|exfalso; apply H; by right].
    clear H. run_js; reflexivity.
  - split; [split|]; intros H; [|by left|exfalso; apply H; by left].
    clear H. run_js; reflexivity.
  - split; [split|]; intros H; [|by left|exfalso; apply H; by left].
    clear H. run_js; reflexivity.
Qed.

(** C1.  On the two metered text routes (article and blog title, the
    capabilities that are not premium-only) the handler gets past its quota
    gate, that is, calls the text provider, exactly when the plan is premium
    or [free_usage < 10]; when it does not, nothing is touched and the reply
    is [{success: false}] with the limit-reached message.  A premium request
    gets past the gate whatever [free_usage] is. *)
Theorem quota_gate_metered_text sv (req : request) w :
  ((plan req = "premium" \/ free_usage req < 10 <->
      calls_provider (generateArticle sv req w) w (article_call req))
   /\ (plan req = "premium" \/ free_usage req < 10 <->
      calls_provider (generateBlogTitle sv req w) w (title_call req)))
  /\ (~ (plan req = "premium" \/ free_usage req < 10) ->
      generateArticle sv req w = (w, json_with_message false limit_reached)
      /\ generateBlogTitle sv req w = (w, json_with_message false limit_reached))
  /\ (plan req = "premium" ->
      calls_provider (generateArticle sv req w) w (article_call req)
      /\ calls_provider (generateBlogTitle sv req w) w (title_call req)).
Proof.
  destruct (article_gate sv req w) as [A1 A2].
  destruct (title_gate sv req w) as [T1 T2].
  split; [split; assumption|].
  split; [intros H; split; [apply A2 | apply T2]; exact H|].
  intros H. split; [apply A1 | apply T1]; by left.
Qed.

Lemma quota_gate_metered_text_witness :
  generateArticle answering (as_plan "user_a" "free" 10 None) (a_world 10 [])
  = (a_world 10 [], json_with_message false limit_reached)
  /\ calls_provider
       (generateBlogTitle answering (as_plan "user_a" "premium" 25 None)
          (a_world 25 []))
       (a_world 25 []) (title_call (as_plan "user_a" "premium" 25 None)).
Proof.
  split.
  - apply (quota_gate_metered_text answering
             (as_plan "user_a" "free" 10 None) (a_world 10 [])).
    simpl. intros [H | H]; [discriminate | lia].
  - apply (quota_gate_metered_text answering
             (as_plan "user_a" "premium" 25 None) (a_world 25 [])).
    reflexivity.
Defined.

(** *** Premium-only capabilities *)

(** C5.  On the three premium-only routes (image generation, background
    removal, object removal) a request whose plan is not premium is answered
    [{success: false}] with the premium-required message, whatever its
    [free_usage] is, and the world is left as it was: no provider was called,
    no row was inserted and no metadata was written. *)
Theorem premium_only_denied sv (req : request) w :
  plan req <> "premium" ->
  generateImage sv req w = (w, json_with_message false premium_only)
  /\ removeImageBackground sv req w = (w, json_with_message false premium_only)
  /\ removeImageObject sv req w = (w, json_with_message false premium_only).
Proof.
  intros P. apply not_premium in P.
  unfold generateImage, removeImageBackground, removeImageObject.
  rewrite P. unfold try_catch, ret. auto.
Qed.

Lemma premium_only_denied_witness :
  generateImage answering (as_plan "user_a" "free" 0 None) (a_world 0 [])
  = (a_world 0 [], json_with_message false premium_only)
  /\ removeImageBackground answering (as_plan "user_a" "free" 0 None)
       (a_world 0 [])
     = (a_world 0 [], json_with_message false premium_only)
  /\ removeImageObject answering (as_plan "user_a" "free" 0 None)
       (a_world 0 [])
     = (a_world 0 [], json_with_message false premium_only).
Proof.
  apply (premium_only_denied answering (as_plan "user_a" "free" 0 None)
           (a_world 0 [])).
  simpl. discriminate.
Defined.

(** *** The size limit of the resume review *)

(** C10.  A resume-review request that gets past the quota gate (premium, or
    [free_usage < 10]) with an uploaded file of more than [5 * 1024 * 1024]
    bytes is answered [{success: false}] with the size-limit message and
    leaves the world as it was: no provider call, no row, no metadata
    write. *)
Theorem resume_too_large sv (req : request) w (f : upload) :
  plan req = "premium" \/ free_usage req < 10 ->
  file req = Some f ->
  size f > 5 * 1024 * 1024 ->
  resumeReview sv req w = (w, json_with_message false size_exceeded).
Proof.
  intros G F S. unfold resumeReview.
  assert (negb (String.eqb (plan req) "premium") && (free_usage req >=? 10)
          = false) as ->.
  { apply andb_false_iff. destruct G as [G | G].
    - left. apply negb_false_iff. by apply eqb_premium.
    - right. by apply not_reached. }
  rewrite F. unfold try_catch, file_property, bind, ret. simpl.
  assert ((size f >? 5 * 1024 * 1024) = true) as ->; [|done].
  rewrite Z.gtb_ltb. apply Z.ltb_lt. lia.
Qed.

Lemma resume_too_large_witness :
  resumeReview answering
    (as_plan "user_a" "free" 3 (Some {| path := "/tmp/cv"; size := 5242881 |}))
    (a_world 3 [])
  = (a_world 3 [], json_with_message false size_exceeded).
Proof.
  apply (resume_too_large answering
           (as_plan "user_a" "free" 3
              (Some {| path := "/tmp/cv"; size := 5242881 |}))
           (a_world 3 []) {| path := "/tmp/cv"; size := 5242881 |}).
  - right. simpl. lia.
  - reflexivity.
  - simpl. lia.
Defined.

(** *** Provider failures *)

(** C6.  When the capability invocation of a generation route fails, the
    reply is [{success: false}], no row is appended to [creations] and the
    identity provider's metadata (the [free_usage] counter with it) is left
    as it was.  Stated for the six routes; [generateArticle] is the first. *)
Theorem provider_failure_commits_nothing e sv (req : request) w :
  provider_error e sv req ->
  success (snd (controller e sv req w)) = false
  /\ uncommitted w (fst (controller e sv req w)).
Proof.
  unfold uncommitted.
  destruct e; simpl; intros E.
  - unfold generateArticle.
    destruct (chat_completion sv _ _) eqn:C; [|done].
    run_js; auto.
  - unfold generateBlogTitle.
    destruct (chat_completion sv _ _) eqn:C; [|done].
    run_js; auto.
  - unfold generateImage.
    destruct (text_to_image sv _) as [m | data] eqn:T.
    + run_js; auto.
    + specialize (E data eq_refl).
      destruct (cloudinary_upload sv _ _) eqn:C; [|done].
      run_js; auto.
  - unfold removeImageBackground.
    destruct (file req) as [f|] eqn:F.
    + specialize (E f eq_refl).
      destruct (cloudinary_upload sv _ _) eqn:C; [|done].
      run_js; auto.
    + run_js; auto.
  - unfold removeImageObject.
    destruct (file req) as [f|] eqn:F.
    + specialize (E f eq_refl).
      destruct (cloudinary_upload sv _ _) eqn:C; [|done].
      run_js; auto.
    + run_js; auto.
  - unfold resumeReview.
    destruct (file req) as [f|] eqn:F.
    + specialize (E f).
      destruct (readFileSync sv (path f)) as [m | buffer] eqn:R.
      * run_js; auto.
      * specialize (E buffer).
        destruct (pdf sv buffer) as [m | text] eqn:T.
        -- run_js; auto.
        -- specialize (E text eq_refl eq_refl eq_refl).
           destruct (chat_completion sv _ _) eqn:C; [|done].
           run_js; auto.
    + run_js; auto.
Qed.

Lemma provider_failure_commits_nothing_witness :
  success (snd (generateArticle provider_down
                  (as_plan "user_a" "free" 3 None) (a_world 3 []))) = false
  /\ uncommitted (a_world 3 [])
       (fst (generateArticle provider_down
               (as_plan "user_a" "free" 3 None) (a_world 3 []))).
Proof.
  apply (provider_failure_commits_nothing GenerateArticle provider_down
           (as_plan "user_a" "free" 3 None) (a_world 3 [])).
  exact I.
Defined.

(** *** The usage commit *)

Lemma premium_run_keeps_clerk e sv (req : request) w :
  plan req = "premium" ->
  clerk (fst (controller e sv req w)) = clerk w.
Proof.
  intros P. apply eqb_premium in P.
  destruct e; simpl;
    [unfold generateArticle | unfold generateBlogTitle | unfold generateImage
    | unfold removeImageBackground | unfold removeImageObject
    | unfold resumeReview];
    rewrite P; simpl; run_js; reflexivity.
Qed.

(** C7.  The handlers never write to the identity provider for a request
    whose plan is premium: after any number of handler runs on premium
    requests, on any routes and whatever the providers answer (successful
    generations included), the stored metadata, and so the stored
    [free_usage], is what it was. *)
Theorem premium_usage_never_committed
    (calls : list (endpoint * services * request)) w :
  Forall (fun c => plan (snd c) = "premium") calls ->
  clerk (run calls w) = clerk w
  /\ forall uid, stored_free_usage (run calls w) uid = stored_free_usage w uid.
Proof.
  intros H.
  assert (clerk (run calls w) = clerk w) as E.
  { revert w. induction H as [| [[e sv] req] rest P _ IH]; intros w.
    - reflexivity.
    - simpl. rewrite IH. by apply premium_run_keeps_clerk. }
  split; [exact E|]. intros uid. unfold stored_free_usage. by rewrite E.
Qed.

Lemma premium_usage_never_committed_witness :
  stored_free_usage
    (run [(GenerateArticle, answering, as_plan "user_a" "premium" 7 None);
          (ResumeReview, answering,
            as_plan "user_a" "premium" 7
              (Some {| path := "/tmp/cv"; size := 1000 |}));
          (GenerateArticle, answering, as_plan "user_a" "premium" 7 None)]
       (a_world 7 []))
    "user_a"
  = Some 7.
Proof.
  rewrite (proj2 (premium_usage_never_committed
    [(GenerateArticle, answering, as_plan "user_a" "premium" 7 None);
     (ResumeReview, answering,
       as_plan "user_a" "premium" 7
         (Some {| path := "/tmp/cv"; size := 1000 |}));
     (GenerateArticle, answering, as_plan "user_a" "premium" 7 None)]
    (a_world 7 [])
    ltac:(repeat constructor))).
  reflexivity.
Defined.

(** *** The resolver *)

(** What [auth] hands on is the request it received, with the plan read off
    the session. *)
Lemma auth_next sv r w w' (req : request) :
  auth sv r w = (w', inr req) ->
  inc req = r /\ plan req = (if has_premium r then "premium" else "free").
Proof.
  unfold auth. intros H. run_js; destruct (has_premium r); auto.
Qed.

(** C2, as stated, fails: a premium user whose stored counter is 5 has it
    overwritten with 0 by [auth]. *)
Lemma premium_counter_forced_to_zero :
  has_premium (from_user "user_a" true None) = true
  /\ stored_free_usage (a_world 5 []) "user_a" = Some 5
  /\ stored_free_usage
       (fst (auth answering (from_user "user_a" true None) (a_world 5 [])))
       "user_a" = Some 0.
Proof. repeat split; reflexivity. Qed.

(** C2, amended.  For a premium user known to the identity provider, [auth]
    writes [free_usage: 0] into the stored metadata (the other keys and the
    other users stay as they were) and hands [free_usage = 0] on with plan
    premium.  For a user without the premium plan whose stored counter is a
    number other than 0, [auth] writes nothing and hands the stored value
    on. *)
Theorem auth_resets_premium_counter sv r w (u : user) :
  getUser_fault sv = None ->
  updateUserMetadata_fault sv = None ->
  clerk w !! userId r = Some u ->
  (has_premium r = true ->
     exists w',
       auth sv r w = (w', inr {| inc := r; plan := "premium"; free_usage := 0 |})
       /\ stored_free_usage w' (userId r) = Some 0
       /\ clerk w' = <[userId r :=
                        {| privateMetadata :=
                             <["free_usage" := 0]> (privateMetadata u) |}]>
                       (clerk w)
       /\ creations w' = creations w /\ invoked w' = invoked w)
  /\ (forall n, has_premium r = false ->
        privateMetadata u !! "free_usage" = Some n -> n <> 0 ->
        auth sv r w = (w, inr {| inc := r; plan := "free"; free_usage := n |})).
Proof.
  intros G U L. split.
  - intros P. eexists. unfold auth, stored_free_usage.
    unfold_js. rewrite G, U, L, P. simpl.
    destruct (privateMetadata u !! "free_usage"); simpl; rewrite L.
    all: split; [reflexivity|]; simpl.
    all: rewrite lookup_insert_eq; simpl; rewrite lookup_insert_eq; auto.
  - intros n P S N. unfold auth. unfold_js. rewrite G, L, P, S. simpl.
    apply Z.eqb_neq in N. rewrite N. reflexivity.
Qed.

Lemma auth_resets_premium_counter_witness :
  exists w',
    auth answering (from_user "user_a" true None) (a_world 5 [])
    = (w', inr {| inc := from_user "user_a" true None;
                  plan := "premium"; free_usage := 0 |})
    /\ stored_free_usage w' "user_a" = Some 0.
Proof.
  destruct (proj1 (auth_resets_premium_counter answering
                     (from_user "user_a" true None) (a_world 5 [])
                     (with_usage 5) eq_refl eq_refl eq_refl) eq_refl)
    as (w' & A & S & _).
  exists w'. split; assumption.
Defined.

(** *** Ten free generations *)

Lemma serve_app h (l1 l2 : list (services * incoming)) w :
  serve h (l1 ++ l2) w =
  (fst (serve h l2 (fst (serve h l1 w))),
   (snd (serve h l1 w) ++ snd (serve h l2 (fst (serve h l1 w))))%list).
Proof.
  revert w. induction l1 as [| [sv r] l1 IH]; intros w; simpl.
  - by destruct (serve h l2 w).
  - destruct (route h sv r w) as [w1 j]. rewrite IH.
    destruct (serve h l1 w1) as [w2 js]. simpl.
    by destruct (serve h l2 w2).
Qed.

(** One article request of a free user below the limit: it is served and the
    stored counter becomes the previous one plus 1. *)
Lemma free_article_served uid sv r w :
  is_Some (clerk w !! uid) ->
  free_request uid (sv, r) ->
  counter w uid < 10 ->
  success (snd (route generateArticle sv r w)) = true
  /\ stored_free_usage (fst (route generateArticle sv r w)) uid
     = Some (counter w uid + 1).
Proof.
  intros [u L] (<- & P & G & U & I & C) K. simpl in *.
  unfold counter, stored_free_usage in K. rewrite L in K. simpl in K.
  unfold route, auth, generateArticle, counter, stored_free_usage.
  unfold_js. rewrite G, U, I, L, P. simpl.
  destruct (chat_completion sv _ _) as [m | c] eqn:E; [by destruct C|].
  destruct (privateMetadata u !! "free_usage") as [n|] eqn:S; simpl in *.
  - destruct (n =? 0) eqn:Z0; simpl.
    + apply Z.eqb_eq in Z0. subst n. rewrite L. simpl.
      rewrite E. simpl. rewrite lookup_insert_eq. simpl.
      rewrite lookup_insert_eq. simpl. by rewrite lookup_insert_eq.
    + assert ((n >=? 10) = false) as -> by (apply not_reached; lia).
      rewrite E. simpl. rewrite L. simpl.
      rewrite lookup_insert_eq. simpl. by rewrite lookup_insert_eq.
  - rewrite L. simpl. rewrite E. simpl. rewrite lookup_insert_eq. simpl.
    rewrite lookup_insert_eq. simpl. by rewrite lookup_insert_eq.
Qed.

(** One article request of a free user at or beyond the limit: it is denied
    and nothing changes. *)
Lemma free_article_denied uid sv r w n :
  free_request uid (sv, r) ->
  stored_free_usage w uid = Some n ->
  10 <= n ->
  route generateArticle sv r w = (w, json_with_message false limit_reached).
Proof.
  intros (<- & P & G & _) S K. simpl in *.
  unfold stored_free_usage in S.
  destruct (clerk w !! userId r) as [u|] eqn:L; [|done]. simpl in S.
  unfold route, auth, generateArticle. unfold_js. rewrite G, L, S, P. simpl.
  assert ((n =? 0) = false) as -> by (apply Z.eqb_neq; lia). simpl.
  assert ((n >=? 10) = true) as -> by (by apply reached).
  reflexivity.
Qed.

Lemma stored_counter w uid n :
  stored_free_usage w uid = Some n ->
  is_Some (clerk w !! uid) /\ counter w uid = n.
Proof.
  unfold counter. intros S. rewrite S. split; [|done].
  unfold stored_free_usage in S. destruct (clerk w !! uid); [eauto | done].
Qed.

Lemma counter_stored w uid n :
  counter w uid = n -> n <> 0 -> stored_free_usage w uid = Some n.
Proof.
  unfold counter. destruct (stored_free_usage w uid); simpl; congruence.
Qed.

(** As long as the limit is not reached every request in a row is served,
    and the counter has advanced by their number. *)
Lemma free_articles_served uid (rs : list (services * incoming)) w :
  is_Some (clerk w !! uid) ->
  Forall (free_request uid) rs ->
  counter w uid + Z.of_nat (length rs) <= 10 ->
  Forall (fun j => success j = true) (snd (serve generateArticle rs w))
  /\ length (snd (serve generateArticle rs w)) = length rs
  /\ is_Some (clerk (fst (serve generateArticle rs w)) !! uid)
  /\ counter (fst (serve generateArticle rs w)) uid
     = counter w uid + Z.of_nat (length rs).
Proof.
  intros K F. revert w K.
  induction F as [| [sv r] rest R _ IH]; intros w K B; simpl in *.
  - repeat split; [constructor | done | lia].
  - destruct (free_article_served uid sv r w K R) as [J S]; [lia|].
    destruct (route generateArticle sv r w) as [w1 j]. simpl in *.
    apply stored_counter in S as [K1 C1].
    destruct (IH w1 K1) as (A & B1 & C & D); [lia|].
    destruct (serve generateArticle rest w1) as [w2 js]. simpl in *.
    repeat split; [by constructor | lia | done | lia].
Qed.

(** C3, as stated, fails: with the counter starting at 0 the tenth request
    in a row is served too (it is made with the counter at 9), and leaves
    the counter at 10. *)
Lemma tenth_generation_is_served :
  snd (serve generateArticle
         (replicate 10 (answering, from_user "user_a" false None))
         (a_world 0 [])) !! 9%nat
  = Some (json_with_content "Re: Hi")
  /\ stored_free_usage
       (fst (serve generateArticle
               (replicate 10 (answering, from_user "user_a" false None))
               (a_world 0 [])))
       "user_a"
     = Some 10.
Proof. split; vm_compute; reflexivity. Qed.

(** C3, amended.  For a user on the free plan whose counter starts at 0
    (stored as 0 or not stored yet), eleven article requests in a row that
    meet no failure go as follows: the first ten are served, the stored
    counter being [k] after the first [k] of them (each one advances it by
    exactly 1), and the eleventh is denied with the limit-reached message,
    the counter staying at 10. *)
Theorem ten_free_generations uid (rs : list (services * incoming)) w :
  is_Some (clerk w !! uid) ->
  counter w uid = 0 ->
  length rs = 11%nat ->
  Forall (free_request uid) rs ->
  (forall k, (1 <= k <= 10)%nat ->
     stored_free_usage (fst (serve generateArticle (take k rs) w)) uid
     = Some (Z.of_nat k))
  /\ (forall k j, (k < 10)%nat ->
        snd (serve generateArticle rs w) !! k = Some j -> success j = true)
  /\ snd (serve generateArticle rs w) !! 10%nat
     = Some (json_with_message false limit_reached)
  /\ stored_free_usage (fst (serve generateArticle rs w)) uid = Some 10.
Proof.
  intros K C0 L F.
  assert (forall k, (k <= 10)%nat ->
    Forall (fun j => success j = true)
      (snd (serve generateArticle (take k rs) w))
    /\ length (snd (serve generateArticle (take k rs) w)) = k
    /\ counter (fst (serve generateArticle (take k rs) w)) uid = Z.of_nat k)
    as Prefix.
  { intros k Hk.
    destruct (free_articles_served uid (take k rs) w K) as (A & B & _ & D).
    - by apply Forall_take.
    - rewrite length_take. lia.
    - rewrite length_take in B, D. repeat split; [done | lia | lia]. }
  destruct (Prefix 10%nat) as (A & B & D); [lia|].
  apply counter_stored in D; [|lia].
  assert (exists x, drop 10 rs = [x] /\ free_request uid x) as (x & Dx & Fx).
  { pose proof (length_drop rs 10) as Ld. rewrite L in Ld.
    destruct (drop 10 rs) as [| x [| y l]] eqn:E; simpl in Ld; try lia.
    exists x. split; [done|].
    assert (Forall (free_request uid) (drop 10 rs)) as Fd
      by (by apply Forall_drop).
    rewrite E in Fd. by inversion Fd. }
  pose proof (serve_app generateArticle (take 10 rs) (drop 10 rs) w) as App.
  rewrite take_drop, Dx in App. destruct x as [sv r]. simpl in App.
  rewrite (free_article_denied uid sv r _ 10 Fx D) in App by lia.
  simpl in App. rewrite App. simpl.
  split; [|split; [|split]].
  - intros k Hk. apply counter_stored; [|lia]. apply Prefix. lia.
  - intros k j Hk Hj. rewrite lookup_app_l in Hj by lia.
    rewrite Forall_forall in A. apply A.
    by eapply list_elem_of_lookup_2.
  - rewrite lookup_app_r by lia. by rewrite B, Nat.sub_diag.
  - exact D.
Qed.

Lemma ten_free_generations_witness :
  snd (serve generateArticle
         (replicate 11 (answering, from_user "user_a" false None))
         (a_world 0 [])) !! 10%nat
  = Some (json_with_message false limit_reached).
Proof.
  apply (ten_free_generations "user_a"
           (replicate 11 (answering, from_user "user_a" false None))
           (a_world 0 [])).
  - by eexists.
  - reflexivity.
  - reflexivity.
  - repeat constructor; simpl; tauto.
Defined.

(** *** The like toggle *)

Lemma includes_elem (l : list string) (x : string) :
  includes l x = true <-> x ∈ l.
Proof.
  unfold includes. rewrite existsb_exists, list_elem_of_In. split.
  - intros (y & I & E). apply String.eqb_eq in E. by subst.
  - intros I. exists x. split; [done | apply String.eqb_refl].
Qed.

Lemma toggled_member (x : string) (l : list string) :
  x ∈ l ->
  toggled x l
  = (List.filter (fun user => negb (String.eqb user x)) l, "Creation disliked").
Proof. intros I. apply includes_elem in I. unfold toggled. by rewrite I. Qed.

Lemma toggled_not_member (x : string) (l : list string) :
  x ∉ l -> toggled x l = ((l ++ [x])%list, "Creation liked").
Proof.
  intros N. unfold toggled. destruct (includes l x) eqn:I; [|done].
  apply includes_elem in I. contradiction.
Qed.

Lemma elem_of_others (x y : string) (l : list string) :
  y ∈ List.filter (fun user => negb (String.eqb user x)) l <-> y ∈ l /\ y <> x.
Proof.
  rewrite !list_elem_of_In, List.filter_In, negb_true_iff, String.eqb_neq.
  tauto.
Qed.

Lemma others_of_stranger (x : string) (l : list string) :
  x ∉ l -> List.filter (fun user => negb (String.eqb user x)) l = l.
Proof.
  induction l as [| y l IH]; intros N; [done|]. simpl.
  apply not_elem_of_cons in N as [Nx Nl].
  assert (String.eqb y x = false) as -> by (apply String.eqb_neq; congruence).
  simpl. by rewrite IH.
Qed.

(** Removal deletes every occurrence of the caller. *)
Lemma toggled_member_gone (x : string) (l : list string) :
  x ∈ l -> x ∉ fst (toggled x l).
Proof.
  intros I. rewrite (toggled_member x l I). simpl.
  rewrite elem_of_others. tauto.
Qed.

(** Toggling twice, on the lists themselves. *)
Lemma toggled_twice_stranger (x : string) (l : list string) :
  x ∉ l -> fst (toggled x (fst (toggled x l))) = l.
Proof.
  intros N. rewrite (toggled_not_member x l N). simpl.
  rewrite toggled_member by (apply elem_of_app; right; by apply list_elem_of_singleton).
  simpl. rewrite List.filter_app. simpl. rewrite String.eqb_refl. simpl.
  rewrite app_nil_r. by apply others_of_stranger.
Qed.

Lemma toggled_twice_same_set (x : string) (l : list string) :
  list_to_set (fst (toggled x (fst (toggled x l)))) =@{gset string}
  list_to_set l.
Proof.
  destruct (decide (x ∈ l)) as [I | N].
  - rewrite (toggled_member x l I). simpl.
    rewrite toggled_not_member by (rewrite elem_of_others; tauto).
    simpl. apply set_eq. intros y.
    rewrite !elem_of_list_to_set, elem_of_app, elem_of_others,
      list_elem_of_singleton.
    destruct (decide (y = x)) as [-> | D]; tauto.
  - by rewrite toggled_twice_stranger.
Qed.

Lemma toggled_NoDup (x : string) (l : list string) :
  NoDup l -> NoDup (fst (toggled x l)).
Proof.
  intros D. destruct (decide (x ∈ l)) as [I | N].
  - rewrite (toggled_member x l I). simpl.
    apply NoDup_ListNoDup, List.NoDup_filter. by apply NoDup_ListNoDup.
  - rewrite (toggled_not_member x l N). simpl.
    apply NoDup_app. repeat split; [done | | apply NoDup_singleton].
    intros y Hy Hx. apply list_elem_of_singleton in Hx. by subst.
Qed.

Lemma find_after_update i l w (c : creation) :
  find_creation i w = Some c ->
  find_creation i (set_creations w (likes_where i l (creations w)) (next_id w))
  = Some (set_likes l c).
Proof.
  unfold find_creation, likes_where. simpl.
  induction (creations w) as [| r rows IH]; [done|]. simpl.
  rewrite !filter_cons. destruct (decide (creation_id r = i)) as [E | N].
  - simpl. rewrite decide_True by done. simpl. congruence.
  - rewrite decide_False by done. exact IH.
Qed.

Lemma find_other_after_update i j l w :
  j <> i ->
  find_creation j (set_creations w (likes_where i l (creations w)) (next_id w))
  = find_creation j w.
Proof.
  intros D. unfold find_creation, likes_where. simpl. f_equal.
  induction (creations w) as [| r rows IH]; [done|]. simpl.
  rewrite !filter_cons, IH.
  destruct (decide (creation_id r = i)) as [E | N]; [|done].
  simpl. rewrite !decide_False by congruence. done.
Qed.

(** The handler on an existing creation, with a store that answers. *)
Lemma toggle_existing sv (req : request) w (c : creation) :
  find_creation (body_id (req_body req)) w = Some c ->
  faithful sv (fst (toggled (userId req) (likes c))) ->
  toggleLikeCreation sv req w
  = (set_creations w
       (likes_where (body_id (req_body req))
          (fst (toggled (userId req) (likes c))) (creations w))
       (next_id w),
     json_with_message true (snd (toggled (userId req) (likes c)))).
Proof.
  unfold find_creation. intros F (S & U & T).
  unfold toggleLikeCreation. unfold_js. rewrite S. simpl.
  destruct (filter _ (creations w)) as [| r rows]; simplify_eq/=.
  destruct (toggled (userId req) (likes c)) as [l m]. simpl in *.
  by rewrite U, T.
Qed.

Lemma set_likes_same (c : creation) : set_likes (likes c) c = c.
Proof. by destruct c. Qed.

Lemma found_in_table i w (c : creation) :
  find_creation i w = Some c -> c ∈ creations w.
Proof.
  unfold find_creation. intros H. apply head_Some_elem_of in H.
  by apply list_elem_of_filter in H as [_ H].
Qed.

(** C8.  On an existing creation, two calls of [toggleLikeCreation] by the
    same user, one right after the other, with a store that answers and
    reads the written literals back: the likes of the creation are, as a
    set, what they were; the other creations are untouched; and when the
    user was not among the likes the first reply is "Creation liked", the
    second "Creation disliked" and the row is exactly what it was (when the
    user was among them the replies come in the other order). *)
Theorem toggle_like_twice sv1 sv2 (req : request) w (c : creation) :
  find_creation (body_id (req_body req)) w = Some c ->
  faithful sv1 (once (userId req) (likes c)) ->
  faithful sv2 (twice (userId req) (likes c)) ->
  find_creation (body_id (req_body req))
    (fst (toggleLikeCreation sv2 req (fst (toggleLikeCreation sv1 req w))))
  = Some (set_likes (twice (userId req) (likes c)) c)
  /\ list_to_set (twice (userId req) (likes c)) =@{gset string}
     list_to_set (likes c)
  /\ (forall j, j <> body_id (req_body req) ->
       find_creation j
         (fst (toggleLikeCreation sv2 req (fst (toggleLikeCreation sv1 req w))))
       = find_creation j w)
  /\ (userId req ∉ likes c ->
       snd (toggleLikeCreation sv1 req w) = liked
       /\ snd (toggleLikeCreation sv2 req (fst (toggleLikeCreation sv1 req w)))
          = disliked
       /\ find_creation (body_id (req_body req))
            (fst (toggleLikeCreation sv2 req
                    (fst (toggleLikeCreation sv1 req w))))
          = Some c)
  /\ (userId req ∈ likes c ->
       snd (toggleLikeCreation sv1 req w) = disliked
       /\ snd (toggleLikeCreation sv2 req (fst (toggleLikeCreation sv1 req w)))
          = liked).
Proof.
  intros F F1 F2. unfold twice, once in *.
  rewrite (toggle_existing sv1 req w c F F1). simpl.
  pose proof (find_after_update (body_id (req_body req))
                (fst (toggled (userId req) (likes c))) w c F) as F'.
  rewrite (toggle_existing sv2 req _ _ F' F2). simpl.
  assert (forall l, find_creation (body_id (req_body req))
            (set_creations
               (set_creations w
                  (likes_where (body_id (req_body req))
                     (fst (toggled (userId req) (likes c))) (creations w))
                  (next_id w))
               (likes_where (body_id (req_body req)) l
                  (likes_where (body_id (req_body req))
                     (fst (toggled (userId req) (likes c))) (creations w)))
               (next_id w))
          = Some (set_likes l c)) as Found.
  { intros l.
    apply (find_after_update _ l
             (set_creations w
                (likes_where (body_id (req_body req))
                   (fst (toggled (userId req) (likes c))) (creations w))
                (next_id w))) in F'.
    exact F'. }
  split; [apply Found|].
  split; [apply toggled_twice_same_set|].
  split.
  { intros j D.
    rewrite (find_other_after_update _ j _
               (set_creations w
                  (likes_where (body_id (req_body req))
                     (fst (toggled (userId req) (likes c))) (creations w))
                  (next_id w)) D).
    by apply find_other_after_update. }
  split.
  - intros N. rewrite Found, toggled_twice_stranger, set_likes_same by done.
    rewrite (toggled_not_member _ _ N). simpl.
    rewrite toggled_member
      by (apply elem_of_app; right; by apply list_elem_of_singleton).
    done.
  - intros I. rewrite (toggled_member _ _ I). simpl.
    rewrite toggled_not_member by (rewrite elem_of_others; tauto).
    done.
Qed.

Lemma toggle_like_twice_witness :
  find_creation 1
    (fst (toggleLikeCreation answering (as_plan "user_b" "free" 0 None)
            (fst (toggleLikeCreation answering
                    (as_plan "user_b" "free" 0 None)
                    (a_world 0 ["user_a"])))))
  = Some (a_creation ["user_a"]).
Proof.
  apply (toggle_like_twice answering answering
           (as_plan "user_b" "free" 0 None) (a_world 0 ["user_a"])
           (a_creation ["user_a"])).
  - reflexivity.
  - repeat split; reflexivity.
  - repeat split; reflexivity.
  - simpl. intros H. apply list_elem_of_singleton in H. discriminate.
Defined.

(** C9.  [toggleLikeCreation] keeps the likes free of repetitions: if no
    user id occurs twice in the likes of any creation before the call, none
    does after it, provided the store reads the written literal back.  On
    the way, a caller who is among the likes is removed from them
    altogether, and a caller who is not is put at their end. *)
Theorem toggle_keeps_likes_distinct sv (req : request) w :
  (forall c, find_creation (body_id (req_body req)) w = Some c ->
     text_array sv (formattedArray (once (userId req) (likes c)))
     = once (userId req) (likes c)) ->
  Forall (fun c => NoDup (likes c)) (creations w) ->
  Forall (fun c => NoDup (likes c))
    (creations (fst (toggleLikeCreation sv req w)))
  /\ (forall c, userId req ∈ likes c ->
       userId req ∉ once (userId req) (likes c))
  /\ (forall c, userId req ∉ likes c ->
       once (userId req) (likes c) = (likes c ++ [userId req])%list).
Proof.
  intros T D. split; [|split].
  - unfold toggleLikeCreation. unfold_js.
    destruct (select_fault sv); simpl; [done|].
    destruct (filter _ (creations w)) as [| c rows] eqn:E; simpl; [done|].
    assert (find_creation (body_id (req_body req)) w = Some c) as F
      by (unfold find_creation; by rewrite E).
    specialize (T c F). unfold once in T.
    destruct (toggled (userId req) (likes c)) as [l m] eqn:G. simpl in *.
    destruct (update_fault sv); simpl; [done|].
    rewrite T. unfold likes_where. apply Forall_map, Forall_forall.
    intros r R. simpl. rewrite Forall_forall in D.
    destruct (decide _); simpl; [|by apply D].
    replace l with (fst (toggled (userId req) (likes c))) by (by rewrite G).
    apply toggled_NoDup, D. by apply found_in_table in F.
  - intros c I. by apply toggled_member_gone.
  - intros c N. unfold once. by rewrite toggled_not_member.
Qed.

Lemma toggle_keeps_likes_distinct_witness :
  Forall (fun c => NoDup (likes c))
    (creations
       (fst (toggleLikeCreation answering (as_plan "user_a" "free" 0 None)
               (a_world 0 ["user_b"; "user_a"; "user_c"])))).
Proof.
  apply (toggle_keeps_likes_distinct answering
           (as_plan "user_a" "free" 0 None)
           (a_world 0 ["user_b"; "user_a"; "user_c"])).
  - intros c F. vm_compute in F. injection F as <-. reflexivity.
  - apply (bool_decide_unpack _). vm_compute. exact I.
Defined.

(** *** The reasons given on denial *)

(** On the resume-review route a request that is not premium and has
    reached the limit is turned away at the quota gate, with the message of
    the premium-only routes. *)
Lemma resume_gate_denial sv (req : request) w :
  plan req <> "premium" -> 10 <= free_usage req ->
  resumeReview sv req w = (w, json_with_message false premium_only).
Proof.
  intros P U. apply not_premium in P. apply reached in U.
  unfold resumeReview. rewrite P, U. reflexivity.
Qed.

(** C4.  A free-plan request with [free_usage = 10]: the article route
    denies it with the limit-reached message, the resume-review route
    denies it, on the same test, with the premium-required message, and the
    two messages differ. *)
Theorem resume_limit_denial_reason :
  generateArticle answering
    (as_plan "user_a" "free" 10 (Some {| path := "/tmp/cv"; size := 1000 |}))
    (a_world 10 [])
  = (a_world 10 [], json_with_message false limit_reached)
  /\ resumeReview answering
       (as_plan "user_a" "free" 10 (Some {| path := "/tmp/cv"; size := 1000 |}))
       (a_world 10 [])
     = (a_world 10 [], json_with_message false premium_only)
  /\ premium_only <> limit_reached.
Proof.
  split; [reflexivity|]. split; [reflexivity|]. discriminate.
Qed.

(** *** The reference store reads back what the handler writes *)

Lemma append_cons (c : ascii) (s t : string) :
  String c s +:+ t = String c (s +:+ t).
Proof. reflexivity. Qed.

Lemma append_nil (t : string) : "" +:+ t = t.
Proof. reflexivity. Qed.

Lemma append_empty (s : string) : s +:+ "" = s.
Proof.
  induction s as [| c s IH]; [done|]. by rewrite append_cons, IH.
Qed.

Lemma append_char (acc : string) (c : ascii) (s : string) :
  (acc +:+ String c "") +:+ s = acc +:+ String c s.
Proof.
  induction acc as [| a acc IH]; [done|]. by rewrite !append_cons, IH.
Qed.

Lemma split_commas_last (s acc : string) :
  comma_free s = true -> split_commas acc s = [acc +:+ s].
Proof.
  revert acc. induction s as [| c s IH]; intros acc F; simpl in *.
  - by rewrite append_empty.
  - apply andb_true_iff in F as [C F]. apply negb_true_iff in C.
    rewrite C, IH, append_char by done. done.
Qed.

Lemma split_commas_next (s acc t : string) :
  comma_free s = true ->
  split_commas acc (s +:+ String ","%char t)
  = (acc +:+ s) :: split_commas "" t.
Proof.
  revert acc. induction s as [| c s IH]; intros acc F.
  - rewrite append_nil, append_empty. reflexivity.
  - simpl in F. apply andb_true_iff in F as [C F]. apply negb_true_iff in C.
    rewrite append_cons. simpl. rewrite C, IH, append_char by done. done.
Qed.

Lemma split_commas_join (x : string) (l : list string) :
  Forall plain_id (x :: l) ->
  split_commas "" (join "," (x :: l)) = x :: l.
Proof.
  revert x. induction l as [| y l IH]; intros x F.
  - inversion F as [| ? ? [_ Fx] _]. simpl. by rewrite split_commas_last.
  - inversion F as [| ? ? [_ Fx] Fl]. subst.
    change (join "," (x :: y :: l))
      with (x +:+ String ","%char (join "," (y :: l))).
    rewrite split_commas_next by done. rewrite append_nil. by rewrite IH.
Qed.

Lemma substring_prefix (s t : string) :
  substring 0 (String.length s) (s +:+ t) = s.
Proof.
  induction s as [| c s IH].
  - rewrite append_nil. by destruct t.
  - rewrite append_cons. simpl. by rewrite IH.
Qed.

Lemma length_append_one (s : string) (c : ascii) :
  String.length (s +:+ String c "") = S (String.length s).
Proof.
  induction s as [| a s IH]; [done|]. rewrite append_cons. simpl.
  by rewrite IH.
Qed.

(** Lists of plain ids survive the trip through the literal. *)
Lemma read_text_array_formatted (l : list string) :
  Forall plain_id l -> read_text_array (formattedArray l) = l.
Proof.
  intros F. unfold formattedArray, read_text_array.
  rewrite append_cons, append_nil, length_append_one.
  replace (S (String.length (join "," l)) - 1)%nat
    with (String.length (join "," l)) by lia.
  rewrite substring_prefix.
  destruct l as [| x l]; [done|].
  transitivity (split_commas "" (join "," (x :: l)));
    [|by apply split_commas_join].
  inversion F as [| ? ? [Nx _] _]. subst.
  destruct x as [| c x]; [done|]. by destruct l.
Qed.

Lemma answering_faithful (l : list string) :
  Forall plain_id l -> faithful answering l.
Proof.
  intros F. repeat split. simpl. by apply read_text_array_formatted.
Qed.

(** Toggling keeps the ids plain, so the reference store is faithful to
    both lists written by two successive toggles. *)
Lemma once_plain (u : string) (l : list string) :
  plain_id u -> Forall plain_id l -> Forall plain_id (once u l).
Proof.
  intros Pu Pl. unfold once. destruct (decide (u ∈ l)) as [I | N].
  - rewrite (toggled_member u l I). simpl.
    rewrite Forall_forall in *. intros y Hy.
    apply elem_of_others in Hy as [Hy _]. by apply Pl.
  - rewrite (toggled_not_member u l N). simpl.
    apply Forall_app. split; [done | by constructor].
Qed.

Lemma answering_faithful_twice (u : string) (l : list string) :
  plain_id u -> Forall plain_id l ->
  faithful answering (once u l) /\ faithful answering (twice u l).
Proof.
  intros Pu Pl. split; apply answering_faithful; unfold twice;
    repeat apply once_plain; done.
Qed.

(** ** Further properties of the code *)

(** *** [auth] *)

Lemma auth_cases sv r w :
  (exists m, auth sv r w = (w, inl (json_with_error m)))
  \/ (exists u n, clerk w !! userId r = Some u
        /\ privateMetadata u !! "free_usage" = Some n /\ n <> 0
        /\ has_premium r = false
        /\ auth sv r w = (w, inr {| inc := r; plan := "free"; free_usage := n |}))
  \/ (exists u, clerk w !! userId r = Some u
        /\ (has_premium r = true
            \/ privateMetadata u !! "free_usage" = None
            \/ privateMetadata u !! "free_usage" = Some 0)
        /\ getUser_fault sv = None
        /\ updateUserMetadata_fault sv = None
        /\ auth sv r w
           = (set_clerk w (<[userId r := counted 0 u]> (clerk w)),
              inr {| inc := r;
                     plan := if has_premium r then "premium" else "free";
                     free_usage := 0 |})).
Proof.
  unfold auth, counted. unfold_js.
  destruct (getUser_fault sv) as [m|]; simpl; [left; eauto|].
  destruct (clerk w !! userId r) as [u|] eqn:L; simpl; [|left; eauto].
  destruct (privateMetadata u !! "free_usage") as [n|] eqn:S.
  - destruct (has_premium r) eqn:P; simpl.
    + destruct (updateUserMetadata_fault sv); simpl; [left; eauto|].
      rewrite L. right. right. exists u. auto 10.
    + destruct (n =? 0) eqn:Z0; simpl.
      * apply Z.eqb_eq in Z0. subst n.
        destruct (updateUserMetadata_fault sv); simpl; [left; eauto|].
        rewrite L. right. right. exists u. auto 10.
      * apply Z.eqb_neq in Z0. right. left. exists u, n. auto.
  - destruct (updateUserMetadata_fault sv); simpl; [left; eauto|].
    rewrite L. right. right. exists u. split; [done|]. split; [auto|].
    by destruct (has_premium r).
Qed.

Lemma stored_after_count w uid (u : user) n :
  stored_free_usage (set_clerk w (<[uid := counted n u]> (clerk w))) uid
  = Some n.
Proof.
  unfold stored_free_usage, counted. simpl.
  rewrite lookup_insert_eq. simpl. by rewrite lookup_insert_eq.
Qed.

(** X1.  When [auth] answers the request itself instead of calling
    [next()], the answer is [{success: false, error}], nothing has been
    written, and the handler behind it on the route is not run.  This is
    what happens to a user the identity provider does not know. *)
Theorem auth_rejection sv r w w' (j : json) :
  auth sv r w = (w', inl j) ->
  w' = w
  /\ success j = false
  /\ is_Some (json_error j)
  /\ json_content j = None
  /\ (forall h, route h sv r w = (w, j)).
Proof.
  intros A.
  destruct (auth_cases sv r w) as [(m & E) | [(u & n & _ & _ & _ & _ & E)
                                            | (u & _ & _ & _ & _ & E)]];
    rewrite E in A; simplify_eq.
  repeat split; [by eexists|].
  intros h. unfold route. by rewrite E.
Qed.

Lemma auth_rejection_witness :
  route generateArticle answering (from_user "user_z" false None)
    (a_world 3 [])
  = (a_world 3 [], json_with_error not_found).
Proof.
  apply (auth_rejection answering (from_user "user_z" false None)
           (a_world 3 []) (a_world 3 []) (json_with_error not_found)).
  reflexivity.
Defined.

(** X2.  A user unknown to the identity provider is always rejected by
    [auth], whatever the plan of the session. *)
Theorem auth_unknown_user sv r w :
  clerk w !! userId r = None ->
  exists m, auth sv r w = (w, inl (json_with_error m)).
Proof.
  intros L.
  destruct (auth_cases sv r w) as [E | [(u & n & L' & _) | (u & L' & _)]];
    [done | congruence | congruence].
Qed.

Lemma auth_unknown_user_witness :
  exists m,
    auth answering (from_user "user_z" true None) (a_world 3 [])
    = (a_world 3 [], inl (json_with_error m)).
Proof.
  apply (auth_unknown_user answering (from_user "user_z" true None)
           (a_world 3 [])).
  reflexivity.
Defined.

(** X3.  Cold start: for a known user on the free plan whose counter is
    not stored yet, or is stored as 0, [auth] writes [free_usage: 0] and
    hands the request on with plan free and [free_usage = 0]. *)
Theorem auth_cold_start sv r w (u : user) :
  getUser_fault sv = None ->
  updateUserMetadata_fault sv = None ->
  clerk w !! userId r = Some u ->
  has_premium r = false ->
  privateMetadata u !! "free_usage" = None
  \/ privateMetadata u !! "free_usage" = Some 0 ->
  auth sv r w
  = (set_clerk w (<[userId r := counted 0 u]> (clerk w)),
     inr {| inc := r; plan := "free"; free_usage := 0 |}).
Proof.
  intros G U L P S. unfold auth, counted. unfold_js.
  rewrite G, U, L, P. simpl.
  destruct S as [-> | ->]; simpl; by rewrite L.
Qed.

Lemma auth_cold_start_witness :
  stored_free_usage
    (fst (auth answering (from_user "user_a" false None) new_world)) "user_a"
  = Some 0
  /\ snd (auth answering (from_user "user_a" false None) new_world)
     = inr {| inc := from_user "user_a" false None;
              plan := "free"; free_usage := 0 |}.
Proof.
  rewrite (auth_cold_start answering (from_user "user_a" false None)
             new_world new_user eq_refl eq_refl eq_refl eq_refl
             (or_introl eq_refl)).
  split; reflexivity.
Defined.

(** X4.  [auth] writes nothing but the caller's [free_usage] key: the
    creations, the id counter and the recorded provider calls are what they
    were, no user appears or disappears, the other users' metadata and the
    caller's other metadata keys are untouched. *)
Theorem auth_frame sv r w :
  creations (fst (auth sv r w)) = creations w
  /\ next_id (fst (auth sv r w)) = next_id w
  /\ invoked (fst (auth sv r w)) = invoked w
  /\ dom (clerk (fst (auth sv r w))) = dom (clerk w)
  /\ (forall uid, uid <> userId r ->
        clerk (fst (auth sv r w)) !! uid = clerk w !! uid)
  /\ (forall u u' key,
        clerk w !! userId r = Some u ->
        clerk (fst (auth sv r w)) !! userId r = Some u' ->
        key <> "free_usage" ->
        privateMetadata u' !! key = privateMetadata u !! key).
Proof.
  destruct (auth_cases sv r w) as [(m & E) | [(u & n & _ & _ & _ & _ & E)
                                            | (u & L & _ & _ & _ & E)]];
    rewrite E; simpl.
  1, 2: repeat split; try done; intros; congruence.
  repeat split; try done.
  - rewrite dom_insert_L. apply subseteq_union_1_L, singleton_subseteq_l.
    by eapply elem_of_dom_2.
  - intros uid D. by rewrite lookup_insert_ne.
  - intros u0 u' key L0 L' D. rewrite lookup_insert_eq in L'.
    simplify_eq. unfold counted. simpl. by rewrite lookup_insert_ne.
Qed.

(** X5.  When [auth] hands a request on, the request is the one received,
    its plan is read off the session, and its [free_usage] is the value the
    identity provider holds for the caller at that moment: 0 for a premium
    session, the caller's counter (0 when none was stored) otherwise. *)
Theorem auth_hands_on_stored sv r w w' (req : request) :
  auth sv r w = (w', inr req) ->
  inc req = r
  /\ plan req = (if has_premium r then "premium" else "free")
  /\ stored_free_usage w' (userId r) = Some (free_usage req)
  /\ (has_premium r = true -> free_usage req = 0)
  /\ (has_premium r = false -> free_usage req = counter w (userId r)).
Proof.
  intros A.
  destruct (auth_cases sv r w) as [(m & E) | [(u & n & L & S & N & P & E)
                                            | (u & L & C & G & U & E)]];
    rewrite E in A; simplify_eq; simpl.
  - rewrite P. unfold counter, stored_free_usage. rewrite L. simpl.
    rewrite S. repeat split; try done.
  - rewrite stored_after_count. repeat split; try done.
    intros P. unfold counter, stored_free_usage. rewrite L. simpl.
    destruct C as [C | [-> | ->]]; [congruence | done | done].
Qed.

Lemma auth_hands_on_stored_witness :
  stored_free_usage (a_world 4 []) "user_a" = Some 4.
Proof.
  apply (auth_hands_on_stored answering (from_user "user_a" false None)
           (a_world 4 []) (a_world 4 [])
           {| inc := from_user "user_a" false None;
              plan := "free"; free_usage := 4 |}).
  reflexivity.
Defined.

(** X6.  Running [auth] again on the world it left, in the same
    environment, answers the same and writes nothing new. *)
Theorem auth_twice sv r w :
  auth sv r (fst (auth sv r w)) = auth sv r w.
Proof.
  destruct (auth_cases sv r w) as [(m & E) | [(u & n & _ & _ & _ & _ & E)
                                            | (u & L & C & G & U & E)]];
    rewrite E; simpl; [done | done |].
  unfold auth, counted. unfold_js. rewrite G, U. simpl.
  rewrite lookup_insert_eq. simpl. rewrite lookup_insert_eq.
  rewrite andb_false_r. simpl. rewrite lookup_insert_eq. simpl.
  by rewrite !insert_insert_eq.
Qed.

(** *** The generation handlers *)

(** Every run of a handler ends in one of four ways: nothing is recorded
    and the reply is a failure; or one row is recorded and either the plan
    is premium and the reply carries the content, or the commit of the
    usage fails and the reply is a failure, or the usage is committed and
    the reply carries the content. *)
Lemma controller_effect e sv (req : request) w :
  (uncommitted w (fst (controller e sv req w))
   /\ success (snd (controller e sv req w)) = false)
  \/ (exists c,
        creations (fst (controller e sv req w))
        = (creations w ++ [recorded e req (next_id w) c])%list
        /\ next_id (fst (controller e sv req w)) = next_id w + 1
        /\ ((clerk (fst (controller e sv req w)) = clerk w
             /\ plan req = "premium"
             /\ snd (controller e sv req w) = json_with_content c)
            \/ (clerk (fst (controller e sv req w)) = clerk w
                /\ plan req <> "premium"
                /\ is_Some (charge e)
                /\ success (snd (controller e sv req w)) = false)
            \/ (exists u k,
                  plan req <> "premium" /\ free_usage req < 10
                  /\ charge e = Some k
                  /\ clerk w !! userId req = Some u
                  /\ clerk (fst (controller e sv req w))
                     = <[userId req := counted (free_usage req + k) u]>
                         (clerk w)
                  /\ snd (controller e sv req w) = json_with_content c))).
Proof.
  destruct (String.eqb (plan req) "premium") eqn:P;
    [apply eqb_premium in P | apply String.eqb_neq in P];
    (destruct (free_usage req >=? 10) eqn:U;
     [apply reached in U | apply not_reached in U]).
  all: destruct e; simpl;
    [unfold generateArticle | unfold generateBlogTitle | unfold generateImage
    | unfold removeImageBackground | unfold removeImageObject
    | unfold resumeReview].
  all: try (rewrite P; simpl).
  all: try (assert (String.eqb (plan req) "premium" = false) as ->
              by (by apply String.eqb_neq); simpl).
  all: try (assert ((free_usage req >=? 10) = true) as ->
              by (by apply reached); simpl).
  all: try (assert ((free_usage req >=? 10) = false) as ->
              by (by apply not_reached); simpl).
  all: run_js.
  all: try (left; by repeat split).
  all: right; eexists; (split; [reflexivity|]); (split; [reflexivity|]).
  all: try (left; repeat split; reflexivity).
  all: try (right; left; simpl; repeat split; eauto; fail).
  all: right; right; unfold counted; eexists _, _; simpl;
    repeat split; eauto.
Qed.

(** X7.  A [{success: true}] reply of a generation route means exactly one
    row was appended to [creations]: it has the next id, belongs to the
    caller, has the route's type and prompt, no likes, the content that the
    reply carries, and is published only if it is an image whose request
    asked for it. *)
Theorem served_request_is_recorded e sv (req : request) w :
  success (snd (controller e sv req w)) = true ->
  exists c,
    snd (controller e sv req w) = json_with_content c
    /\ creations (fst (controller e sv req w))
       = (creations w ++ [recorded e req (next_id w) c])%list
    /\ next_id (fst (controller e sv req w)) = next_id w + 1.
Proof.
  intros S.
  destruct (controller_effect e sv req w)
    as [[_ F] | (c & A & B & [(_ & _ & R) | [(_ & _ & _ & F)
                                           | (u & k & _ & _ & _ & _ & _ & R)]])];
    try congruence; exists c; auto.
Qed.

Lemma served_request_is_recorded_witness :
  exists c,
    snd (generateImage answering (as_plan "user_a" "premium" 0 None)
           (a_world 0 []))
    = json_with_content c
    /\ creations (fst (generateImage answering
                        (as_plan "user_a" "premium" 0 None) (a_world 0 [])))
       = (creations (a_world 0 [])
            ++ [recorded GenerateImage (as_plan "user_a" "premium" 0 None)
                  (next_id (a_world 0 [])) c])%list
    /\ next_id (fst (generateImage answering
                      (as_plan "user_a" "premium" 0 None) (a_world 0 [])))
       = next_id (a_world 0 []) + 1.
Proof.
  apply (served_request_is_recorded GenerateImage answering
           (as_plan "user_a" "premium" 0 None) (a_world 0 [])).
  reflexivity.
Defined.

(** X8.  A generation handler never changes or removes an existing row and
    appends at most one; it never adds or removes a user, never touches
    another user's metadata, and of the caller's metadata it can only change
    the [free_usage] key. *)
Theorem controller_frame e sv (req : request) w :
  (exists added,
     creations (fst (controller e sv req w)) = (creations w ++ added)%list
     /\ (length added <= 1)%nat)
  /\ dom (clerk (fst (controller e sv req w))) = dom (clerk w)
  /\ (forall uid, uid <> userId req ->
        clerk (fst (controller e sv req w)) !! uid = clerk w !! uid)
  /\ (forall u u' key,
        clerk w !! userId req = Some u ->
        clerk (fst (controller e sv req w)) !! userId req = Some u' ->
        key <> "free_usage" ->
        privateMetadata u' !! key = privateMetadata u !! key).
Proof.
  destruct (controller_effect e sv req w)
    as [[(A & _ & C) _] | (c & A & _ & [(C & _) | [(C & _)
                            | (u & k & _ & _ & _ & L & C & _)]])];
    rewrite A, C.
  1: split; [exists []; split; [symmetry; apply app_nil_r | simpl; lia]|].
  2-4: split; [eexists; split; [reflexivity | simpl; lia]|].
  1-3: repeat split; try done; intros; congruence.
  repeat split.
  - rewrite dom_insert_L. apply subseteq_union_1_L, singleton_subseteq_l.
    by eapply elem_of_dom_2.
  - intros uid D. by rewrite lookup_insert_ne.
  - intros u0 u' key L0 L' D. rewrite lookup_insert_eq in L'.
    simplify_eq. unfold counted. simpl. by rewrite lookup_insert_ne.
Qed.

(** X9.  A [{success: true}] reply to a request whose plan is not premium
    can only come from a metered route, was made with [free_usage < 10], and
    leaves the caller's stored counter at [free_usage] plus the charge of
    the route: 1 for an article or a blog title, 3 for a resume review. *)
Theorem served_request_is_charged e sv (req : request) w :
  success (snd (controller e sv req w)) = true ->
  plan req <> "premium" ->
  exists k,
    charge e = Some k
    /\ free_usage req < 10
    /\ stored_free_usage (fst (controller e sv req w)) (userId req)
       = Some (free_usage req + k).
Proof.
  intros S P.
  destruct (controller_effect e sv req w)
    as [[_ F] | (c & _ & _ & [(_ & Q & _) | [(_ & _ & _ & F)
                            | (u & k & _ & U & K & _ & C & _)]])];
    try congruence.
  exists k. repeat split; [done | done |].
  unfold stored_free_usage. rewrite C, lookup_insert_eq. simpl.
  by rewrite lookup_insert_eq.
Qed.

Lemma served_request_is_charged_witness :
  exists k,
    charge ResumeReview = Some k
    /\ 9 < 10
    /\ stored_free_usage
         (fst (resumeReview answering
                 (as_plan "user_a" "free" 9
                    (Some {| path := "/tmp/cv"; size := 1000 |}))
                 (a_world 9 [])))
         "user_a"
       = Some (9 + k).
Proof.
  apply (served_request_is_charged ResumeReview answering
           (as_plan "user_a" "free" 9
              (Some {| path := "/tmp/cv"; size := 1000 |}))
           (a_world 9 [])).
  - reflexivity.
  - simpl. discriminate.
Defined.

(** X10.  The three premium-only routes never write to the identity
    provider, whatever the plan and whether they succeed or not. *)
Theorem premium_only_routes_keep_clerk e sv (req : request) w :
  charge e = None ->
  clerk (fst (controller e sv req w)) = clerk w.
Proof.
  intros N.
  destruct (controller_effect e sv req w)
    as [[(_ & _ & C) _] | (c & _ & _ & [(C & _) | [(C & _)
                            | (u & k & _ & _ & K & _)]])];
    try done; congruence.
Qed.

Lemma premium_only_routes_keep_clerk_witness :
  clerk (fst (removeImageObject answering
                (as_plan "user_a" "premium" 4
                   (Some {| path := "/tmp/img"; size := 10 |}))
                (a_world 4 [])))
  = clerk (a_world 4 []).
Proof.
  apply (premium_only_routes_keep_clerk RemoveImageObject answering
           (as_plan "user_a" "premium" 4
              (Some {| path := "/tmp/img"; size := 10 |}))
           (a_world 4 [])).
  reflexivity.
Defined.

(** X11.  When the store refuses the [INSERT], the reply is a failure, no
    row is appended and no usage is committed, on every route, even though
    the providers may have been called and have answered. *)
Theorem insert_failure_commits_nothing e sv (req : request) w (m : string) :
  insert_fault sv = Some m ->
  success (snd (controller e sv req w)) = false
  /\ uncommitted w (fst (controller e sv req w)).
Proof.
  intros F. unfold uncommitted.
  destruct e; simpl;
    [unfold generateArticle | unfold generateBlogTitle | unfold generateImage
    | unfold removeImageBackground | unfold removeImageObject
    | unfold resumeReview];
    unfold_js; rewrite F; repeat (case_match; simplify_eq/=); auto.
Qed.

Lemma insert_failure_commits_nothing_witness :
  success
    (snd (generateArticle
            {| getUser_fault := None; updateUserMetadata_fault := None;
               select_fault := None; insert_fault := Some "connection lost";
               update_fault := None; text_array := read_text_array;
               chat_completion := chat_completion answering;
               text_to_image := text_to_image answering;
               base64 := base64 answering;
               cloudinary_upload := cloudinary_upload answering;
               cloudinary_url := cloudinary_url answering;
               readFileSync := readFileSync answering;
               pdf := pdf answering |}
            (as_plan "user_a" "free" 3 None) (a_world 3 [])))
  = false.
Proof.
  apply (insert_failure_commits_nothing GenerateArticle _
           (as_plan "user_a" "free" 3 None) (a_world 3 [])
           "connection lost").
  reflexivity.
Defined.

(** X12.  When the generation and the [INSERT] succeed but the identity
    provider refuses the usage update, the article and blog-title handlers
    reply [{success: false}] with the provider's message although the row
    has been recorded; the stored counter stays as it was. *)
Theorem commit_failure_keeps_row sv (req : request) w (c m : string) :
  plan req <> "premium" ->
  free_usage req < 10 ->
  insert_fault sv = None ->
  updateUserMetadata_fault sv = Some m ->
  (chat_completion sv (body_prompt (req_body req)) (body_length (req_body req))
   = inr c ->
   snd (generateArticle sv req w) = json_with_message false m
   /\ creations (fst (generateArticle sv req w))
      = (creations w ++ [recorded GenerateArticle req (next_id w) c])%list
   /\ clerk (fst (generateArticle sv req w)) = clerk w)
  /\ (chat_completion sv (body_prompt (req_body req)) 100 = inr c ->
      snd (generateBlogTitle sv req w) = json_with_message false m
      /\ creations (fst (generateBlogTitle sv req w))
         = (creations w ++ [recorded GenerateBlogTitle req (next_id w) c])%list
      /\ clerk (fst (generateBlogTitle sv req w)) = clerk w).
Proof.
  intros P U I F. apply not_premium in P. apply not_reached in U.
  split; intros C; [unfold generateArticle | unfold generateBlogTitle];
    rewrite P, U; unfold_js; rewrite C, I, F; simpl; auto.
Qed.

Lemma commit_failure_keeps_row_witness :
  snd (generateArticle
         {| getUser_fault := None;
            updateUserMetadata_fault := Some "429 Too Many Requests";
            select_fault := None; insert_fault := None;
            update_fault := None; text_array := read_text_array;
            chat_completion := chat_completion answering;
            text_to_image := text_to_image answering;
            base64 := base64 answering;
            cloudinary_upload := cloudinary_upload answering;
            cloudinary_url := cloudinary_url answering;
            readFileSync := readFileSync answering;
            pdf := pdf answering |}
         (as_plan "user_a" "free" 3 None) (a_world 3 []))
  = json_with_message false "429 Too Many Requests".
Proof.
  apply (commit_failure_keeps_row _ (as_plan "user_a" "free" 3 None)
           (a_world 3 []) "Re: Hi" "429 Too Many Requests").
  - simpl. discriminate.
  - simpl. lia.
  - reflexivity.
  - reflexivity.
  - reflexivity.
Defined.

(** X13.  A request that gets past the gate of a route expecting a file
    (background removal, object removal, resume review) but carries none is
    answered [{success: false}] with an error message, and nothing is
    touched: the read of the missing file's property throws before any
    provider is called. *)
Theorem missing_file_is_caught sv (req : request) w :
  file req = None ->
  (plan req = "premium" ->
     fst (removeImageBackground sv req w) = w
     /\ success (snd (removeImageBackground sv req w)) = false
     /\ fst (removeImageObject sv req w) = w
     /\ success (snd (removeImageObject sv req w)) = false)
  /\ (plan req = "premium" \/ free_usage req < 10 ->
      fst (resumeReview sv req w) = w
      /\ success (snd (resumeReview sv req w)) = false
      /\ is_Some (json_message (snd (resumeReview sv req w)))).
Proof.
  intros F. split.
  - intros P. apply eqb_premium in P.
    unfold removeImageBackground, removeImageObject.
    rewrite P, F. simpl. auto.
  - intros G. unfold resumeReview.
    assert (negb (String.eqb (plan req) "premium") && (free_usage req >=? 10)
            = false) as ->.
    { apply andb_false_iff. destruct G as [G | G].
      - left. apply negb_false_iff. by apply eqb_premium.
      - right. by apply not_reached. }
    rewrite F. simpl. repeat split. by eexists.
Qed.

Lemma missing_file_is_caught_witness :
  fst (resumeReview answering (as_plan "user_a" "free" 2 None) (a_world 2 []))
  = a_world 2 []
  /\ success (snd (resumeReview answering (as_plan "user_a" "free" 2 None)
                     (a_world 2 []))) = false
  /\ is_Some (json_message
                (snd (resumeReview answering (as_plan "user_a" "free" 2 None)
                        (a_world 2 [])))).
Proof.
  apply (missing_file_is_caught answering (as_plan "user_a" "free" 2 None)
           (a_world 2 [])).
  - reflexivity.
  - right. simpl. lia.
Defined.

(** X14.  The size limit of the resume review is inclusive: a file of at
    most [5 * 1024 * 1024] bytes, that very size included, passes the size
    test, so the handler goes on to read the file, which is the first call
    it makes. *)
Theorem resume_within_limit_is_read sv (req : request) w (f : upload) :
  plan req = "premium" \/ free_usage req < 10 ->
  file req = Some f ->
  size f <= 5 * 1024 * 1024 ->
  exists later,
    invoked (fst (resumeReview sv req w))
    = (invoked w ++ ReadFileSync (path f) :: later)%list.
Proof.
  intros G F S. unfold resumeReview.
  assert (negb (String.eqb (plan req) "premium") && (free_usage req >=? 10)
          = false) as ->.
  { apply andb_false_iff. destruct G as [G | G].
    - left. apply negb_false_iff. by apply eqb_premium.
    - right. by apply not_reached. }
  rewrite F. unfold try_catch at 1. unfold file_property, bind at 1, ret at 1.
  simpl.
  assert ((size f >? 5 * 1024 * 1024) = false) as ->.
  { rewrite Z.gtb_ltb. apply Z.ltb_ge. lia. }
  run_js; simpl; rewrite <- ?app_assoc; simpl; eauto.
Qed.

Lemma resume_within_limit_is_read_witness :
  exists later,
    invoked (fst (resumeReview answering
                    (as_plan "user_a" "free" 2
                       (Some {| path := "/tmp/cv"; size := 5242880 |}))
                    (a_world 2 [])))
    = (invoked (a_world 2 []) ++ ReadFileSync "/tmp/cv" :: later)%list.
Proof.
  apply (resume_within_limit_is_read answering
           (as_plan "user_a" "free" 2
              (Some {| path := "/tmp/cv"; size := 5242880 |}))
           (a_world 2 []) {| path := "/tmp/cv"; size := 5242880 |}).
  - right. simpl. lia.
  - reflexivity.
  - simpl. lia.
Defined.

(** *** Requests in a row *)

Lemma premium_article_served uid sv r w :
  is_Some (clerk w !! uid) ->
  premium_request uid (sv, r) ->
  success (snd (route generateArticle sv r w)) = true
  /\ stored_free_usage (fst (route generateArticle sv r w)) uid = Some 0
  /\ length (creations (fst (route generateArticle sv r w)))
     = S (length (creations w)).
Proof.
  intros [u L] (<- & P & G & U & I & C). simpl in *.
  unfold route, auth, generateArticle, stored_free_usage.
  unfold_js. rewrite G, L, P. simpl.
  destruct (chat_completion sv _ _) as [m | c] eqn:E; [by destruct C|].
  destruct (privateMetadata u !! "free_usage"); simpl;
    rewrite U; simpl; rewrite L; simpl; rewrite E, I; simpl;
    rewrite lookup_insert_eq; simpl; rewrite lookup_insert_eq;
    rewrite length_app; simpl; repeat split; lia.
Qed.

(** X15.  Premium is unlimited: article requests in a row by a known
    premium user that meet no failure are all served, however many there
    are; each appends one row, and the stored counter is 0 after each. *)
Theorem premium_requests_all_served uid (rs : list (services * incoming)) w :
  is_Some (clerk w !! uid) ->
  Forall (premium_request uid) rs ->
  Forall (fun j => success j = true) (snd (serve generateArticle rs w))
  /\ length (snd (serve generateArticle rs w)) = length rs
  /\ length (creations (fst (serve generateArticle rs w)))
     = (length (creations w) + length rs)%nat
  /\ (rs <> [] ->
      stored_free_usage (fst (serve generateArticle rs w)) uid = Some 0).
Proof.
  intros K F. revert w K.
  induction F as [| [sv r] rest R _ IH]; intros w K; simpl.
  - repeat split; [constructor | lia | done].
  - destruct (premium_article_served uid sv r w K R) as (J & S & N).
    destruct (route generateArticle sv r w) as [w1 j]. simpl in *.
    pose proof (stored_counter _ _ _ S) as [K1 _].
    destruct (IH w1 K1) as (A & B & C & D).
    destruct (serve generateArticle rest w1) as [w2 js] eqn:E. simpl in *.
    repeat split; [by constructor | lia | lia |].
    intros _. destruct rest as [| x rest]; [|by apply D].
    simpl in E. by simplify_eq.
Qed.

Lemma premium_requests_all_served_witness :
  Forall (fun j => success j = true)
    (snd (serve generateArticle
            (replicate 25 (answering, from_user "user_a" true None))
            (a_world 7 []))).
Proof.
  apply (premium_requests_all_served "user_a"
           (replicate 25 (answering, from_user "user_a" true None))
           (a_world 7 [])).
  - by eexists.
  - repeat constructor; simpl; tauto.
Defined.

Lemma over_limit_denied e k uid sv r w n :
  charge e = Some k ->
  stored_free_usage w uid = Some n ->
  10 <= n ->
  free_session uid (sv, r) ->
  fst (route (controller e) sv r w) = w
  /\ success (snd (route (controller e) sv r w)) = false.
Proof.
  intros K S B (<- & P). simpl in *. unfold route.
  unfold stored_free_usage in S.
  destruct (auth_cases sv r w)
    as [(m & E) | [(u & n' & L & S' & _ & _ & E) | (u & L & C & _ & _ & E)]];
    rewrite E; [done | |].
  - rewrite L in S. simpl in S. assert (n' = n) as -> by congruence.
    apply reached in B.
    destruct e; simplify_eq/=;
      [unfold generateArticle | unfold generateBlogTitle
      | unfold resumeReview]; simpl; rewrite B; done.
  - rewrite L in S. simpl in S.
    destruct C as [C | [C | C]]; [congruence | congruence |].
    rewrite C in S. simplify_eq. lia.
Qed.

(** X16.  Once the stored counter of a user is 10 or more, every request
    of that user on a metered route (article, blog title, resume review)
    made without the premium plan is answered with a failure and changes
    nothing, however many follow and whatever the providers would have
    answered. *)
Theorem over_limit_stays_denied e k uid (rs : list (services * incoming))
    w n :
  charge e = Some k ->
  stored_free_usage w uid = Some n ->
  10 <= n ->
  Forall (free_session uid) rs ->
  fst (serve (controller e) rs w) = w
  /\ Forall (fun j => success j = false) (snd (serve (controller e) rs w))
  /\ length (snd (serve (controller e) rs w)) = length rs.
Proof.
  intros K S B F. induction F as [| [sv r] rest R _ IH]; simpl.
  - by repeat split.
  - destruct (over_limit_denied e k uid sv r w n K S B R) as [W J].
    destruct (route (controller e) sv r w) as [w1 j]. simpl in *. subst w1.
    destruct IH as (A & C & D).
    destruct (serve (controller e) rest w) as [w2 js]. simpl in *.
    repeat split; [done | by constructor | lia].
Qed.

Lemma over_limit_stays_denied_witness :
  fst (serve resumeReview
         (replicate 4
            (answering,
             from_user "user_a" false
               (Some {| path := "/tmp/cv"; size := 1000 |})))
         (a_world 11 []))
  = a_world 11 [].
Proof.
  apply (over_limit_stays_denied ResumeReview 3 "user_a"
           (replicate 4
              (answering,
               from_user "user_a" false
                 (Some {| path := "/tmp/cv"; size := 1000 |})))
           (a_world 11 []) 11).
  - reflexivity.
  - reflexivity.
  - lia.
  - repeat constructor.
Defined.

(** *** A bound on the counter *)

Lemma counter_same_clerk w w' uid :
  clerk w' = clerk w -> counter w' uid = counter w uid.
Proof. unfold counter, stored_free_usage. by intros ->. Qed.

Lemma counter_counted w w' uid caller (u : user) n :
  clerk w' = <[caller := counted n u]> (clerk w) ->
  counter w' uid = if decide (uid = caller) then n else counter w uid.
Proof.
  unfold counter, stored_free_usage. intros ->.
  destruct (decide (uid = caller)) as [-> | D].
  - rewrite lookup_insert_eq. unfold counted. simpl.
    by rewrite lookup_insert_eq.
  - by rewrite lookup_insert_ne.
Qed.

Lemma charge_at_most_three e k : charge e = Some k -> 1 <= k <= 3.
Proof. destruct e; simpl; intros; simplify_eq; lia. Qed.

Lemma controller_bound e sv (req : request) w uid :
  counter w uid <= 12 ->
  counter (fst (controller e sv req w)) uid <= 12.
Proof.
  intros B.
  destruct (controller_effect e sv req w)
    as [[(_ & _ & C) _] | (c & _ & _ & [(C & _) | [(C & _)
                            | (u & k & _ & U & K & _ & C & _)]])].
  1-3: by rewrite (counter_same_clerk _ _ _ C).
  rewrite (counter_counted _ _ _ _ _ _ C).
  apply charge_at_most_three in K. case_decide; lia.
Qed.

(** X17.  The counter of a user never gets past 12: if it is at most 12
    before a request, of any user, on any generation route, it is at most
    12 after it, whatever the plan of the session and whatever the
    providers answer (a resume review made at 9 takes it to 12). *)
Theorem counter_never_exceeds_twelve e sv r w uid :
  counter w uid <= 12 ->
  counter (fst (route (controller e) sv r w)) uid <= 12.
Proof.
  intros B. unfold route.
  destruct (auth_cases sv r w)
    as [(m & E) | [(u & n & _ & _ & _ & _ & E) | (u & L & _ & _ & _ & E)]];
    rewrite E; [done | by apply controller_bound |].
  apply controller_bound.
  rewrite (counter_counted w _ uid (userId r) u 0) by done.
  case_decide; lia.
Qed.

Lemma counter_never_exceeds_twelve_witness :
  counter
    (fst (route resumeReview answering
            (from_user "user_a" false
               (Some {| path := "/tmp/cv"; size := 1000 |}))
            (a_world 9 [])))
    "user_a"
  <= 12.
Proof.
  apply (counter_never_exceeds_twelve ResumeReview answering
           (from_user "user_a" false
              (Some {| path := "/tmp/cv"; size := 1000 |}))
           (a_world 9 []) "user_a").
  vm_compute. discriminate.
Defined.

(** *** More on the like toggle *)

(** X18.  Toggling the like of a creation that does not exist is answered
    [{success: false, message: "Creation not found"}] and changes
    nothing. *)
Theorem toggle_missing_creation sv (req : request) w :
  select_fault sv = None ->
  find_creation (body_id (req_body req)) w = None ->
  toggleLikeCreation sv req w
  = (w, json_with_message false "Creation not found").
Proof.
  unfold find_creation. intros S F.
  unfold toggleLikeCreation. unfold_js. rewrite S. simpl.
  by destruct (filter _ (creations w)).
Qed.

Lemma toggle_missing_creation_witness :
  toggleLikeCreation answering
    {| inc := {| userId := "user_b"; has_premium := false;
                 req_body := {| body_prompt := ""; body_length := 0;
                                body_publish := None; body_object := "";
                                body_id := 404 |};
                 file := None |};
       plan := "free"; free_usage := 0 |}
    (a_world 0 ["user_a"])
  = (a_world 0 ["user_a"], json_with_message false "Creation not found").
Proof.
  apply toggle_missing_creation; reflexivity.
Defined.

Lemma likes_where_columns i l (rows : list creation) :
  map (set_likes []) (likes_where i l rows) = map (set_likes []) rows.
Proof.
  unfold likes_where. rewrite <- list_fmap_compose.
  apply list_fmap_ext. intros _ c _. simpl. by case_decide.
Qed.

(** X19.  The like toggle writes nothing but likes: whatever happens, the
    identity provider, the id counter and the recorded provider calls are
    what they were, no row is added or removed, every row keeps its other
    columns, and the creations with another id keep their likes too.  A
    reply that is a failure means that nothing at all was changed. *)
Theorem toggle_frame sv (req : request) w :
  clerk (fst (toggleLikeCreation sv req w)) = clerk w
  /\ next_id (fst (toggleLikeCreation sv req w)) = next_id w
  /\ invoked (fst (toggleLikeCreation sv req w)) = invoked w
  /\ map (set_likes []) (creations (fst (toggleLikeCreation sv req w)))
     = map (set_likes []) (creations w)
  /\ (forall j, j <> body_id (req_body req) ->
        find_creation j (fst (toggleLikeCreation sv req w))
        = find_creation j w)
  /\ (success (snd (toggleLikeCreation sv req w)) = false ->
      fst (toggleLikeCreation sv req w) = w).
Proof.
  unfold toggleLikeCreation. unfold_js.
  destruct (select_fault sv); simpl; [done|].
  destruct (filter _ (creations w)) as [| c rows]; simpl; [done|].
  destruct (toggled (userId req) (likes c)) as [l m].
  destruct (update_fault sv); simpl; [done|].
  repeat split; [apply likes_where_columns | | done].
  intros j D.
  by apply (find_other_after_update (body_id (req_body req)) j _ w).
Qed.

Lemma elem_of_once (u v : string) (l : list string) :
  v ∈ once u l <-> (v = u /\ u ∉ l) \/ (v <> u /\ v ∈ l).
Proof.
  unfold once. destruct (decide (u ∈ l)) as [I | N].
  - rewrite (toggled_member u l I). simpl. rewrite elem_of_others.
    split; [intros [? ?]; by right | intros [[? ?] | [? ?]]; done].
  - rewrite (toggled_not_member u l N). simpl.
    rewrite elem_of_app, list_elem_of_singleton.
    destruct (decide (v = u)) as [-> | D]; [tauto|].
    split; [intros [? | ?]; [by right | done] | intros [[? ?] | [? ?]]; auto].
Qed.

(** X20.  One toggle on an existing creation, with a store that answers
    and reads the literal back, flips the caller's membership in the likes
    and nobody else's; the reply says "Creation liked" exactly when the
    caller is among the likes afterwards. *)
Theorem toggle_flips_caller sv (req : request) w (c : creation) :
  find_creation (body_id (req_body req)) w = Some c ->
  faithful sv (once (userId req) (likes c)) ->
  exists c',
    find_creation (body_id (req_body req))
      (fst (toggleLikeCreation sv req w)) = Some c'
    /\ (userId req ∈ likes c' <-> userId req ∉ likes c)
    /\ (forall v, v <> userId req -> (v ∈ likes c' <-> v ∈ likes c))
    /\ (snd (toggleLikeCreation sv req w) = liked <-> userId req ∈ likes c')
    /\ (snd (toggleLikeCreation sv req w) = disliked
        <-> userId req ∉ likes c').
Proof.
  intros F T. unfold once in T.
  rewrite (toggle_existing sv req w c F T). simpl.
  exists (set_likes (once (userId req) (likes c)) c).
  split; [by apply find_after_update|]. simpl.
  split; [rewrite elem_of_once; tauto|].
  split; [intros v D; rewrite elem_of_once; tauto|].
  rewrite elem_of_once. unfold liked, disliked.
  destruct (decide (userId req ∈ likes c)) as [I | N].
  - rewrite (toggled_member _ _ I). simpl.
    split; split; try done; try tauto; intros; tauto.
  - rewrite (toggled_not_member _ _ N). simpl.
    split; split; try done; try tauto; intros; tauto.
Qed.

Lemma toggle_flips_caller_witness :
  exists c',
    find_creation 1
      (fst (toggleLikeCreation answering (as_plan "user_b" "free" 0 None)
              (a_world 0 ["user_a"]))) = Some c'
    /\ ("user_b" ∈ likes c' <-> "user_b" ∉ ["user_a"]).
Proof.
  destruct (toggle_flips_caller answering (as_plan "user_b" "free" 0 None)
              (a_world 0 ["user_a"]) (a_creation ["user_a"]))
    as (c' & F & M & _).
  - reflexivity.
  - repeat split; reflexivity.
  - exists c'. split; assumption.
Defined.

Lemma others_length (x : string) (l : list string) :
  NoDup l -> x ∈ l ->
  S (length (List.filter (fun user => negb (String.eqb user x)) l))
  = length l.
Proof.
  induction 1 as [| y l Ny D IH]; intros I; [by apply elem_of_nil in I|].
  simpl. destruct (decide (y = x)) as [-> | Dx].
  - rewrite String.eqb_refl. simpl. by rewrite others_of_stranger.
  - assert (String.eqb y x = false) as -> by (by apply String.eqb_neq).
    simpl. rewrite IH; [done|].
    apply elem_of_cons in I as [-> | I]; done.
Qed.

(** X21.  The number of likes, which is what the community page shows,
    moves by exactly one with each successful toggle when no id is repeated
    in the likes: up by one when the caller was not among them, down by one
    when the caller was. *)
Theorem toggle_moves_count_by_one sv (req : request) w (c : creation) :
  find_creation (body_id (req_body req)) w = Some c ->
  faithful sv (once (userId req) (likes c)) ->
  NoDup (likes c) ->
  exists c',
    find_creation (body_id (req_body req))
      (fst (toggleLikeCreation sv req w)) = Some c'
    /\ (userId req ∉ likes c -> length (likes c') = S (length (likes c)))
    /\ (userId req ∈ likes c -> S (length (likes c')) = length (likes c)).
Proof.
  intros F T D. unfold once in T.
  rewrite (toggle_existing sv req w c F T). simpl.
  exists (set_likes (once (userId req) (likes c)) c).
  split; [by apply find_after_update|]. simpl. unfold once. split.
  - intros N. rewrite (toggled_not_member _ _ N). simpl.
    rewrite length_app. simpl. lia.
  - intros I. rewrite (toggled_member _ _ I). simpl.
    by apply others_length.
Qed.

Lemma toggle_moves_count_by_one_witness :
  exists c',
    find_creation 1
      (fst (toggleLikeCreation answering (as_plan "user_a" "free" 0 None)
              (a_world 0 ["user_b"; "user_a"]))) = Some c'
    /\ S (length (likes c')) = 2%nat.
Proof.
  destruct (toggle_moves_count_by_one answering
              (as_plan "user_a" "free" 0 None)
              (a_world 0 ["user_b"; "user_a"])
              (a_creation ["user_b"; "user_a"]))
    as (c' & F & _ & M).
  - reflexivity.
  - repeat split; reflexivity.
  - apply (bool_decide_unpack _). vm_compute. exact I.
  - exists c'. split; [assumption|]. apply M.
    apply (bool_decide_unpack _). vm_compute. exact I.
Defined.

(** *** The listings *)

Lemma listed_world (c : js (list creation)) w :
  (forall w0, fst (c w0) = w0) -> fst (listed c w) = w.
Proof.
  intros H. unfold listed. specialize (H w).
  destruct (c w) as [w' [m | rows]]; simpl in *; done.
Qed.

(** X22.  [getUserCreations] changes nothing.  When the store answers,
    the reply is a success and lists exactly the caller's creations: each
    row of the caller once for each time it is in the table, and no row of
    anybody else.  When the store fails, the reply is a failure with the
    store's message. *)
Theorem own_creations_listed sv (req : request) w :
  fst (getUserCreations sv req w) = w
  /\ (select_fault sv = None ->
      exists rows,
        snd (getUserCreations sv req w)
        = {| listing_success := true; listing_creations := Some rows;
             listing_message := None |}
        /\ rows ≡ₚ filter (fun c => user_id c = userId req) (creations w)
        /\ (forall c, c ∈ rows <-> c ∈ creations w /\ user_id c = userId req))
  /\ (forall m, select_fault sv = Some m ->
        snd (getUserCreations sv req w)
        = {| listing_success := false; listing_creations := None;
             listing_message := Some m |}).
Proof.
  unfold getUserCreations, listed, sql_select_user, newest_first.
  unfold_js. destruct (select_fault sv) as [m|]; simpl.
  - repeat split; [done | intros ? [=]; by subst].
  - split; [done|]. split; [|done]. intros _. eexists. split; [done|].
    split; [apply reverse_Permutation|].
    intros c. rewrite elem_of_reverse, list_elem_of_filter. tauto.
Qed.

(** X23.  [getPublishedCreations] changes nothing and, when the store
    answers, lists exactly the published creations of all users: the reply
    does not depend on who asks. *)
Theorem published_creations_listed sv (req req' : request) w :
  fst (getPublishedCreations sv req w) = w
  /\ getPublishedCreations sv req w = getPublishedCreations sv req' w
  /\ (select_fault sv = None ->
      exists rows,
        snd (getPublishedCreations sv req w)
        = {| listing_success := true; listing_creations := Some rows;
             listing_message := None |}
        /\ rows ≡ₚ filter (fun c => publish c = true) (creations w)
        /\ (forall c, c ∈ rows <-> c ∈ creations w /\ publish c = true)).
Proof.
  unfold getPublishedCreations, listed, sql_select_published, newest_first.
  unfold_js. destruct (select_fault sv) as [m|]; simpl.
  - repeat split; done.
  - split; [done|]. split; [done|]. intros _. eexists. split; [done|].
    split; [apply reverse_Permutation|].
    intros c. rewrite elem_of_reverse, list_elem_of_filter. tauto.
Qed.

Lemma published_creations_listed_witness :
  exists rows,
    snd (getPublishedCreations answering (as_plan "user_b" "free" 0 None)
           (a_world 0 ["user_a"]))
    = {| listing_success := true; listing_creations := Some rows;
         listing_message := None |}
    /\ rows ≡ₚ filter (fun c => publish c = true)
                 (creations (a_world 0 ["user_a"])).
Proof.
  destruct (proj2 (proj2 (published_creations_listed answering
                            (as_plan "user_b" "free" 0 None)
                            (as_plan "user_a" "free" 0 None)
                            (a_world 0 ["user_a"])))
              eq_refl) as (rows & R & P & _).
  exists rows. split; assumption.
Defined.

(** X24.  A generation that was answered with a success shows up in the
    caller's own listing right away, and in the published listing exactly
    when it is an image whose request asked for publication. *)
Theorem served_request_is_listed e sv sv' (req : request) w :
  success (snd (controller e sv req w)) = true ->
  select_fault sv' = None ->
  exists c own published,
    snd (controller e sv req w) = json_with_content c
    /\ listing_creations
         (snd (getUserCreations sv' req (fst (controller e sv req w))))
       = Some own
    /\ recorded e req (next_id w) c ∈ own
    /\ listing_creations
         (snd (getPublishedCreations sv' req (fst (controller e sv req w))))
       = Some published
    /\ (recorded e req (next_id w) c ∈ published
        <-> e = GenerateImage /\ body_publish (req_body req) = Some true).
Proof.
  intros S F.
  assert (exists c,
            snd (controller e sv req w) = json_with_content c
            /\ creations (fst (controller e sv req w))
               = (creations w ++ [recorded e req (next_id w) c])%list)
    as (c & R & A).
  { destruct (controller_effect e sv req w)
      as [[_ X] | (c & A & _ & [(_ & _ & R) | [(_ & _ & _ & X)
                                | (u & k & _ & _ & _ & _ & _ & R)]])];
      try congruence; eauto. }
  exists c. unfold getUserCreations, getPublishedCreations, listed,
    sql_select_user, sql_select_published, newest_first.
  unfold_js. rewrite F. simpl. rewrite A. do 2 eexists.
  split; [done|]. split; [done|]. split; [|split; [done|]].
  - rewrite elem_of_reverse, list_elem_of_filter, elem_of_app,
      list_elem_of_singleton. auto.
  - rewrite elem_of_reverse, list_elem_of_filter, elem_of_app,
      list_elem_of_singleton. simpl.
    destruct e; simpl;
      try (split; [intros [X _] | intros [X _]]; discriminate).
    destruct (body_publish (req_body req)) as [[|]|]; simpl.
    + split; auto.
    + split; [intros [X _] | intros [_ X]]; discriminate.
    + split; [intros [X _] | intros [_ X]]; discriminate.
Qed.

Lemma served_request_is_listed_witness :
  exists c own published,
    snd (generateArticle answering (as_plan "user_a" "free" 0 None)
           (a_world 0 []))
    = json_with_content c
    /\ listing_creations
         (snd (getUserCreations answering (as_plan "user_a" "free" 0 None)
                 (fst (generateArticle answering
                         (as_plan "user_a" "free" 0 None) (a_world 0 [])))))
       = Some own
    /\ recorded GenerateArticle (as_plan "user_a" "free" 0 None)
         (next_id (a_world 0 [])) c ∈ own
    /\ listing_creations
         (snd (getPublishedCreations answering
                 (as_plan "user_a" "free" 0 None)
                 (fst (generateArticle answering
                         (as_plan "user_a" "free" 0 None) (a_world 0 [])))))
       = Some published
    /\ (recorded GenerateArticle (as_plan "user_a" "free" 0 None)
          (next_id (a_world 0 [])) c ∈ published
        <-> GenerateArticle = GenerateImage
            /\ body_publish (req_body (as_plan "user_a" "free" 0 None))
               = Some true).
Proof.
  apply (served_request_is_listed GenerateArticle answering answering
           (as_plan "user_a" "free" 0 None) (a_world 0 [])).
  - reflexivity.
  - reflexivity.
Defined.

(** *** The array literal *)

(** X25.  The literal built by [formattedArray] determines the likes it
    was built from as long as the ids are not empty and hold no comma: two
    such lists with the same literal are equal.  Without that the literal
    is ambiguous: one id with a comma in it gives the literal of two ids,
    and a single empty id the literal of no id at all. *)
Theorem formattedArray_determines_likes :
  (forall l1 l2 : list string,
     Forall plain_id l1 -> Forall plain_id l2 ->
     formattedArray l1 = formattedArray l2 -> l1 = l2)
  /\ (forall x y : string,
        formattedArray [x +:+ "," +:+ y] = formattedArray [x; y])
  /\ formattedArray [""] = formattedArray [].
Proof.
  split; [|split; [reflexivity | reflexivity]].
  intros l1 l2 P1 P2 E.
  rewrite <- (read_text_array_formatted l1 P1),
    <- (read_text_array_formatted l2 P2).
  by rewrite E.
Qed.

Lemma formattedArray_determines_likes_witness :
  formattedArray ["user_a"; "user_b"] = "{user_a,user_b}"
  /\ forall l2 : list string,
       Forall plain_id l2 ->
       formattedArray ["user_a"; "user_b"] = formattedArray l2 ->
       ["user_a"; "user_b"] = l2.
Proof.
  split; [reflexivity|].
  intros l2. apply (proj1 formattedArray_determines_likes).
  repeat constructor; discriminate.
Defined.

(** *** Whole requests on the premium-only and the resume routes *)

(** X26.  Without the premium plan a request on a premium-only route
    (image generation, background removal, object removal) is never served,
    whatever the counter and the answers of the outside parties: the reply
    is a failure, no provider is called, no row is appended, and the
    counter of every user, as the gate reads it, is what it was. *)
Theorem free_session_never_gets_images e sv r w :
  charge e = None ->
  has_premium r = false ->
  success (snd (route (controller e) sv r w)) = false
  /\ creations (fst (route (controller e) sv r w)) = creations w
  /\ invoked (fst (route (controller e) sv r w)) = invoked w
  /\ (forall uid, counter (fst (route (controller e) sv r w)) uid
                  = counter w uid).
Proof.
  intros K P. unfold route.
  assert (forall (req : request) w0,
            plan req = "free" ->
            controller e sv req w0
            = (w0, json_with_message false premium_only)) as Denied.
  { intros req w0 F.
    destruct e; simplify_eq/=;
      [unfold generateImage | unfold removeImageBackground
      | unfold removeImageObject]; by rewrite F. }
  destruct (auth_cases sv r w)
    as [(m & E) | [(u & n & _ & _ & _ & _ & E) | (u & L & C & _ & _ & E)]];
    rewrite E; [done | by rewrite Denied | rewrite P, Denied by done].
  simpl. repeat split. intros uid.
  rewrite (counter_counted w _ uid (userId r) u 0) by done.
  case_decide as D; [subst uid | done].
  unfold counter, stored_free_usage. rewrite L. simpl.
  destruct C as [C | [-> | ->]]; [congruence | done | done].
Qed.

Lemma free_session_never_gets_images_witness :
  success
    (snd (route generateImage answering (from_user "user_a" false None)
            (a_world 0 [])))
  = false.
Proof.
  apply (free_session_never_gets_images GenerateImage answering
           (from_user "user_a" false None) (a_world 0 [])).
  - reflexivity.
  - reflexivity.
Defined.

(** X27.  The resume review is metered, not premium-only: a request on the
    free plan with [free_usage < 10] and a readable file of at most 5 MB, met
    by no failure, is served with the text provider's answer, which is
    recorded as a ["resume-review"] row, and 3 is added to the stored
    counter. *)
Theorem resume_review_served sv (req : request) w (f : upload) (u : user)
    (buffer text c : string) :
  plan req <> "premium" ->
  free_usage req < 10 ->
  file req = Some f ->
  size f <= 5 * 1024 * 1024 ->
  readFileSync sv (path f) = inr buffer ->
  pdf sv buffer = inr text ->
  chat_completion sv (review_prompt text) 1000 = inr c ->
  insert_fault sv = None ->
  updateUserMetadata_fault sv = None ->
  clerk w !! userId req = Some u ->
  snd (resumeReview sv req w) = json_with_content c
  /\ creations (fst (resumeReview sv req w))
     = (creations w ++ [recorded ResumeReview req (next_id w) c])%list
  /\ stored_free_usage (fst (resumeReview sv req w)) (userId req)
     = Some (free_usage req + 3)
  /\ invoked (fst (resumeReview sv req w))
     = (invoked w ++ [ReadFileSync (path f); PdfParse buffer;
                      ChatCompletion gemini (review_prompt text) 1000])%list.
Proof.
  intros P U F S R T C I M L.
  apply not_premium in P. apply not_reached in U.
  unfold resumeReview, stored_free_usage. rewrite P, U, F. unfold_js. simpl.
  assert ((size f >? 5 * 1024 * 1024) = false) as ->.
  { rewrite Z.gtb_ltb. apply Z.ltb_ge. lia. }
  rewrite R, T, C, I, M. simpl. rewrite L. simpl.
  rewrite lookup_insert_eq. simpl. rewrite lookup_insert_eq.
  rewrite <- !app_assoc. done.
Qed.

Lemma resume_review_served_witness :
  stored_free_usage
    (fst (resumeReview answering
            (as_plan "user_a" "free" 9
               (Some {| path := "/tmp/cv"; size := 5242880 |}))
            (a_world 9 [])))
    "user_a"
  = Some (9 + 3).
Proof.
  apply (resume_review_served answering
           (as_plan "user_a" "free" 9
              (Some {| path := "/tmp/cv"; size := 5242880 |}))
           (a_world 9 []) {| path := "/tmp/cv"; size := 5242880 |}
           (with_usage 9) "%PDF /tmp/cv" "%PDF /tmp/cv"
           ("Re: " +:+ review_prompt "%PDF /tmp/cv")).
  - simpl. discriminate.
  - simpl. lia.
  - reflexivity.
  - simpl. lia.
  - reflexivity.
  - reflexivity.
  - reflexivity.
  - reflexivity.
  - reflexivity.
  - reflexivity.
Defined.
